(** * lgswitch: the LG TV auto-switcher monitor (lgswitch.py)

    A shallow embedding of the two classes of [lgswitch.py], [TVSwitcher]
    and [KeyboardMonitor], and the properties of the switch executor, the
    device filter, the debounce guard, the presence tracker, the startup
    scan and the cleanup guard.

    Also embedded: the signal handler and the reading of the configuration
    in [async_main], and from [setup.py] the functions [discover_tv],
    [detect_keyboards] and [save_config], whose result the monitor reads.

    Conventions of the embedding
    - Every [await] on the TV client, the storage object or the udev monitor
      is an external call whose outcome (normal return or a raised
      exception) is chosen by the environment [env].  The environment is
      indexed by the number of external calls made so far, so it can answer
      the same call differently each time.
    - A method is a computation over the object's fields and a [World] that
      records, newest first, every external call with its outcome and every
      log record, and the coroutines handed to the event loop.
    - Python exceptions carry their class: [except Exception] does not catch
      a [BaseException] that is not an [Exception] (task cancellation,
      KeyboardInterrupt); a bare [except:] catches both.
    - Strings are ASCII (udev ID properties are hexadecimal digits), so
      [str.lower] maps 'A'..'Z' to 'a'..'z' and nothing else.
    - [time.time()] readings are rationals; the debounce test compares the
      difference the code computes with the delay. *)

From Stdlib Require Import String Ascii List Bool Arith Lia NArith ZArith QArith Lqa.
From stdpp Require Import gmap strings.
Import ListNotations.

Local Open Scope string_scope.
Local Open Scope list_scope.

(** ** Exceptions, external calls, the world *)

(** A raised Python exception: whether it is an instance of [Exception]
    and its [str()]. *)
Record exn := Exn { is_Exception : bool; exn_str : string }.

(** Identity of a [WebOsClient] object. *)
Definition Handle := nat.

Inductive Call :=
| StorageSqliteDict_async_init                 (* await self.storage.async_init() *)
| WebOsClient_init (ip : string)               (* WebOsClient(ip, storage=...) *)
| WebOsClient_create (ip : string)             (* await WebOsClient.create(ip, storage=...) *)
| client_connect (h : Handle)                  (* await client.connect() *)
| client_turn_screen_on (h : Handle)           (* await client.turn_screen_on() *)
| client_launch_app (h : Handle) (app : string)(* await client.launch_app(app) *)
| client_disconnect (h : Handle)               (* await client.disconnect() *)
| Monitor_start                                (* Monitor.from_netlink, filter_by, start *)
| Monitor_poll.                                (* run_in_executor(None, poll_with_timeout) *)

Inductive Level := DEBUG | INFO | WARNING | ERROR.

Inductive Event :=
| ECall (c : Call) (raised : option exn)
| ELog (lvl : Level) (msg : string).

Record World := mkWorld {
  events : list Event;      (* newest first *)
  calls_made : nat;         (* number of [ECall] in [events] *)
  scheduled : list bool     (* arguments of the switch_input coroutines given to
                               asyncio.run_coroutine_threadsafe, newest first *)
}.

Definition Env := nat -> Call -> option exn.

(** ** Computations *)

Inductive Res (A : Type) :=
| Ret (a : A)
| Raise (e : exn).
Arguments Ret {A} a.
Arguments Raise {A} e.

Definition M (S A : Type) : Type := S -> World -> Res A * S * World.

Definition ret {S A} (a : A) : M S A := fun s w => (Ret a, s, w).

Definition bind {S A B} (m : M S A) (k : A -> M S B) : M S B :=
  fun s w =>
    match m s w with
    | (Ret a, s', w') => k a s' w'
    | (Raise e, s', w') => (Raise e, s', w')
    end.

Declare Scope py_scope.
Delimit Scope py_scope with py.
Notation "'let*' x := m 'in' k" := (bind m (fun x => k))
  (at level 10, x name, m at level 100, k at level 200) : py_scope.
Notation "m >> k" := (bind m (fun _ => k))
  (at level 90, right associativity) : py_scope.
Local Open Scope py_scope.

Definition get {S} : M S S := fun s w => (Ret s, s, w).
Definition modify {S} (f : S -> S) : M S unit := fun s w => (Ret tt, f s, w).

(** [try: body  except Exception as e: handler e] *)
Definition try_except_Exception {S A} (body : M S A) (handler : exn -> M S A) : M S A :=
  fun s w =>
    match body s w with
    | (Raise e, s', w') =>
        if is_Exception e then handler e s' w' else (Raise e, s', w')
    | r => r
    end.

(** [try: body  except: handler] *)
Definition try_except {S A} (body : M S A) (handler : M S A) : M S A :=
  fun s w =>
    match body s w with
    | (Raise e, s', w') => handler s' w'
    | r => r
    end.

(** [try: body  finally: fin] *)
Definition try_finally {S A} (body : M S A) (fin : M S unit) : M S A :=
  fun s w =>
    match body s w with
    | (r, s', w') =>
        match fin s' w' with
        | (Ret _, s'', w'') => (r, s'', w'')
        | (Raise e, s'', w'') => (Raise e, s'', w'')
        end
    end.

(** A block with one local variable, initialised to [l0]. *)
Definition with_local {S L A} (l0 : L) (m : M (S * L) A) : M S A :=
  fun s w =>
    match m (s, l0) w with
    | (r, (s', _), w') => (r, s', w')
    end.

(** Run a method of the object inside a block that has a local variable. *)
Definition on_self {S L A} (m : M S A) : M (S * L) A :=
  fun sl w =>
    match m (fst sl) w with
    | (r, s', w') => (r, (s', snd sl), w')
    end.

Definition get_local {S L} : M (S * L) L := fun sl w => (Ret (snd sl), sl, w).
Definition set_local {S L} (l : L) : M (S * L) unit := fun sl w => (Ret tt, (fst sl, l), w).

Definition log {S} (lvl : Level) (msg : string) : M S unit :=
  fun s w =>
    (Ret tt, s,
     {| events := ELog lvl msg :: events w;
        calls_made := calls_made w;
        scheduled := scheduled w |}).

(** asyncio.run_coroutine_threadsafe(self.tv_switcher.switch_input(b), self.loop) *)
Definition run_coroutine_threadsafe {S} (b : bool) : M S unit :=
  fun s w =>
    (Ret tt, s,
     {| events := events w;
        calls_made := calls_made w;
        scheduled := b :: scheduled w |}).

Section External.
Variable env : Env.

(** One external call: the environment decides whether it raises. *)
Definition call {S} (c : Call) : M S unit :=
  fun s w =>
    let r := env (calls_made w) c in
    (match r with None => Ret tt | Some e => Raise e end, s,
     {| events := ECall c r :: events w;
        calls_made := Datatypes.S (calls_made w);
        scheduled := scheduled w |}).

(** A call that builds a client object; the new object is named by the
    index of the call that made it. *)
Definition new_client {S} (c : Call) : M S Handle :=
  fun s w =>
    match call c s w with
    | (Ret _, s', w') => (Ret (calls_made w), s', w')
    | (Raise e, s', w') => (Raise e, s', w')
    end.
End External.

(** ** class TVSwitcher *)

Module TVSwitcher.

Record t := mk {
  tv_ip : string;
  hdmi_connected : string;
  hdmi_disconnected : string;
  turn_on_screen : bool;
  client : option Handle;
  storage : option string;
  _cleanup_done : bool
}.

(** [TVSwitcher.__init__] *)
Definition __init__ (tv_ip hdmi_connected hdmi_disconnected : string)
    (turn_on_screen : bool) : t :=
  {| tv_ip := tv_ip;
     hdmi_connected := hdmi_connected;
     hdmi_disconnected := hdmi_disconnected;
     turn_on_screen := turn_on_screen;
     client := None;
     storage := None;
     _cleanup_done := false |}.

Definition set_client (c : option Handle) (self : t) : t :=
  {| tv_ip := tv_ip self;
     hdmi_connected := hdmi_connected self;
     hdmi_disconnected := hdmi_disconnected self;
     turn_on_screen := turn_on_screen self;
     client := c;
     storage := storage self;
     _cleanup_done := _cleanup_done self |}.

Definition set_storage (st : option string) (self : t) : t :=
  {| tv_ip := tv_ip self;
     hdmi_connected := hdmi_connected self;
     hdmi_disconnected := hdmi_disconnected self;
     turn_on_screen := turn_on_screen self;
     client := client self;
     storage := st;
     _cleanup_done := _cleanup_done self |}.

Definition set_cleanup_done (b : bool) (self : t) : t :=
  {| tv_ip := tv_ip self;
     hdmi_connected := hdmi_connected self;
     hdmi_disconnected := hdmi_disconnected self;
     turn_on_screen := turn_on_screen self;
     client := client self;
     storage := storage self;
     _cleanup_done := b |}.

(** str(Path.home() / ".aiopylgtv.sqlite"), with "~" for the home directory *)
Definition storage_file : string := "~/.aiopylgtv.sqlite".

Section Methods.
Variable env : Env.

(** [TVSwitcher.initialize_storage]: the field is assigned before
    [async_init] is awaited, so a failed [async_init] leaves it set. *)
Definition initialize_storage : M t unit :=
  let* self := get in
  match storage self with
  | Some _ => ret tt
  | None =>
      modify (set_storage (Some storage_file)) >>
      call env StorageSqliteDict_async_init >>
      log INFO ("Storage initialized at " ++ storage_file)
  end.

(** [TVSwitcher.connect] *)
Definition connect : M t bool :=
  try_except_Exception
    (let* self := get in
     match client self with
     | Some _ => ret true
     | None =>
         log INFO ("Connecting to TV at " ++ tv_ip self ++ "...") >>
         initialize_storage >>
         (let* h := new_client env (WebOsClient_init (tv_ip self)) in
          modify (set_client (Some h)) >>
          call env (client_connect h) >>
          log INFO "Connected to TV successfully" >>
          ret true)
     end)
    (fun e =>
       log ERROR ("Failed to connect to TV: " ++ exn_str e) >>
       modify (set_client None) >>
       ret false).

(** [TVSwitcher.disconnect] *)
Definition disconnect : M t unit :=
  let* self := get in
  match client self with
  | Some h =>
      try_finally
        (try_except_Exception
           (call env (client_disconnect h) >>
            log INFO "Disconnected from TV")
           (fun e => log WARNING ("Error disconnecting from TV: " ++ exn_str e)))
        (modify (set_client None))
  | None => ret tt
  end.

(** [TVSwitcher.cleanup] *)
Definition cleanup : M t unit :=
  let* self := get in
  if _cleanup_done self then ret tt
  else
    modify (set_cleanup_done true) >>
    disconnect.

(** [TVSwitcher.switch_input]; the local variable is [client]. *)
Definition switch_input (connected : bool) : M t bool :=
  let* self := get in
  let hdmi_app := if connected then hdmi_connected self else hdmi_disconnected self in
  let state_name := if connected then "connected" else "disconnected" in
  log INFO ("Keyboard " ++ state_name ++ ", switching to " ++ hdmi_app) >>
  with_local (None : option Handle)
    (try_except_Exception
       (on_self initialize_storage >>
        log DEBUG ("Connecting to TV at " ++ tv_ip self ++ "...") >>
        (let* h := new_client env (WebOsClient_create (tv_ip self)) in
         set_local (Some h) >>
         call env (client_connect h) >>
         (if connected && turn_on_screen self then
            try_except_Exception
              (log INFO "Turning TV screen on" >>
               call env (client_turn_screen_on h) >>
               log INFO "Successfully turned screen on")
              (fun e => log WARNING ("Could not turn screen on: " ++ exn_str e))
          else ret tt) >>
         call env (client_launch_app h hdmi_app) >>
         log INFO ("Successfully switched to " ++ hdmi_app) >>
         call env (client_disconnect h) >>
         ret true))
       (fun e =>
          log ERROR ("Failed to switch input: " ++ exn_str e) >>
          (let* c := get_local in
           match c with
           | Some h =>
               try_except (call env (client_disconnect h)) (ret tt)
           | None => ret tt
           end) >>
          ret false)).
End Methods.
End TVSwitcher.


(** ** udev devices and strings *)

(** The properties of a pyudev device, as a mapping: [device.get(k)] is
    [device !! k]. *)
Definition Device : Type := gmap string string.

(** [device.get(k, d)] *)
Definition get_or (device : gmap string string) (k d : string) : string :=
  default d (device !! k).

Definition lower_ascii (c : ascii) : ascii :=
  let n := nat_of_ascii c in
  if (65 <=? n)%nat && (n <=? 90)%nat then ascii_of_nat (n + 32) else c.

(** [str.lower] *)
Fixpoint lower (s : string) : string :=
  match s with
  | EmptyString => EmptyString
  | String c s' => String (lower_ascii c) (lower s')
  end.

(** [a < b] on time stamps *)
Definition Qlt_bool (a b : Q) : bool := negb (Qle_bool b a).

(** What one pass of the monitor loop gets from the outside: whether the
    signal handler ran [stop] while the poll was awaited, what
    [monitor.poll(timeout=0.5)] returned ([None] or a device with its
    action), and what [time.time()] reads if the handler asks. *)
Record Poll := mkPoll {
  stop_requested : bool;
  polled : option (string * gmap string string);
  clock : Q
}.

(** ** class KeyboardMonitor *)

Module KeyboardMonitor.

Record t := mk {
  vendor_id : string;
  model_id : string;
  keyboard_name : string;
  tv_switcher : TVSwitcher.t;
  keyboard_connected : option bool;   (* None = unknown *)
  running : bool;
  loop : bool;                        (* false = None, true = the event loop *)
  last_event_time : Q;
  debounce_delay : Q
}.

(** [KeyboardMonitor.__init__] *)
Definition __init__ (vendor_id model_id keyboard_name : string)
    (tv_switcher : TVSwitcher.t) : t :=
  {| vendor_id := lower vendor_id;
     model_id := lower model_id;
     keyboard_name := keyboard_name;
     tv_switcher := tv_switcher;
     keyboard_connected := None;
     running := true;
     loop := false;
     last_event_time := 0;
     debounce_delay := 1 # 2 |}.

Definition set_tv_switcher (sw : TVSwitcher.t) (self : t) : t :=
  {| vendor_id := vendor_id self; model_id := model_id self;
     keyboard_name := keyboard_name self; tv_switcher := sw;
     keyboard_connected := keyboard_connected self; running := running self;
     loop := loop self; last_event_time := last_event_time self;
     debounce_delay := debounce_delay self |}.

Definition set_keyboard_connected (b : option bool) (self : t) : t :=
  {| vendor_id := vendor_id self; model_id := model_id self;
     keyboard_name := keyboard_name self; tv_switcher := tv_switcher self;
     keyboard_connected := b; running := running self;
     loop := loop self; last_event_time := last_event_time self;
     debounce_delay := debounce_delay self |}.

Definition set_running (b : bool) (self : t) : t :=
  {| vendor_id := vendor_id self; model_id := model_id self;
     keyboard_name := keyboard_name self; tv_switcher := tv_switcher self;
     keyboard_connected := keyboard_connected self; running := b;
     loop := loop self; last_event_time := last_event_time self;
     debounce_delay := debounce_delay self |}.

Definition set_loop (b : bool) (self : t) : t :=
  {| vendor_id := vendor_id self; model_id := model_id self;
     keyboard_name := keyboard_name self; tv_switcher := tv_switcher self;
     keyboard_connected := keyboard_connected self; running := running self;
     loop := b; last_event_time := last_event_time self;
     debounce_delay := debounce_delay self |}.

Definition set_last_event_time (q : Q) (self : t) : t :=
  {| vendor_id := vendor_id self; model_id := model_id self;
     keyboard_name := keyboard_name self; tv_switcher := tv_switcher self;
     keyboard_connected := keyboard_connected self; running := running self;
     loop := loop self; last_event_time := q;
     debounce_delay := debounce_delay self |}.

(** A method of [self.tv_switcher], run on the monitor's state. *)
Definition on_tv_switcher {A} (m : M TVSwitcher.t A) : M t A :=
  fun self w =>
    match m (tv_switcher self) w with
    | (r, sw', w') => (r, set_tv_switcher sw' self, w')
    end.

(** [KeyboardMonitor.is_target_keyboard] *)
Definition is_target_keyboard (self : t) (device : gmap string string) : bool :=
  if negb (bool_decide (device !! "ID_BUS" = Some "usb")) then false
  else if negb (bool_decide (device !! "ID_INPUT_KEYBOARD" = Some "1")) then false
  else
    let vendor_id' := lower (get_or device "ID_VENDOR_ID" "") in
    let model_id' := lower (get_or device "ID_MODEL_ID" "") in
    bool_decide (vendor_id' = vendor_id self) && bool_decide (model_id' = model_id self).

(** The test written out in the loop of [check_initial_state]. *)
Definition initial_scan_test (self : t) (device : gmap string string) : bool :=
  if bool_decide (device !! "ID_INPUT_KEYBOARD" = Some "1")
     && bool_decide (device !! "ID_BUS" = Some "usb")
  then
    let vendor_id' := lower (get_or device "ID_VENDOR_ID" "") in
    let model_id' := lower (get_or device "ID_MODEL_ID" "") in
    if bool_decide (vendor_id' = vendor_id self) && bool_decide (model_id' = model_id self)
    then true else false
  else false.

Section Methods.
Variable env : Env.

(** The [for] loop of [check_initial_state] over the devices that
    [context.list_devices(subsystem='input')] lists; the result tells
    whether the loop left the method by its [return]. *)
Fixpoint check_initial_state_scan (devices : list (gmap string string)) : M t bool :=
  match devices with
  | [] => ret false
  | device :: rest =>
      let* self := get in
      if initial_scan_test self device then
        log INFO ("Keyboard '" ++ keyboard_name self ++ "' is currently connected") >>
        modify (set_keyboard_connected (Some true)) >>
        on_tv_switcher (TVSwitcher.switch_input env true) >>
        ret true
      else check_initial_state_scan rest
  end.

(** [KeyboardMonitor.check_initial_state] *)
Definition check_initial_state (devices : list (gmap string string)) : M t unit :=
  log INFO "Checking initial keyboard state..." >>
  (let* returned := check_initial_state_scan devices in
   if returned then ret tt
   else
     let* self := get in
     log INFO ("Keyboard '" ++ keyboard_name self ++ "' is not connected") >>
     modify (set_keyboard_connected (Some false)) >>
     on_tv_switcher (TVSwitcher.switch_input env false) >>
     ret tt).

(** [KeyboardMonitor.handle_device_event]; [now] is what [time.time()]
    returns. *)
Definition handle_device_event (now : Q) (action : string)
    (device : gmap string string) : M t unit :=
  let* self := get in
  if negb (is_target_keyboard self device) then ret tt
  else if Qlt_bool (now - last_event_time self) (debounce_delay self) then ret tt
  else
    modify (set_last_event_time now) >>
    let vendor := get_or device "ID_VENDOR" "Unknown" in
    let model := get_or device "ID_MODEL" "Unknown" in
    if String.eqb action "add" then
      log INFO ("USB keyboard connected: " ++ vendor ++ " " ++ model) >>
      if negb (bool_decide (keyboard_connected self = Some true)) then
        modify (set_keyboard_connected (Some true)) >>
        if loop self then run_coroutine_threadsafe true else ret tt
      else log DEBUG "Keyboard already marked as connected, skipping switch"
    else if String.eqb action "remove" then
      log INFO ("USB keyboard disconnected: " ++ vendor ++ " " ++ model) >>
      if negb (bool_decide (keyboard_connected self = Some false)) then
        modify (set_keyboard_connected (Some false)) >>
        if loop self then run_coroutine_threadsafe false else ret tt
      else log DEBUG "Keyboard already marked as disconnected, skipping switch"
    else ret tt.

(** [KeyboardMonitor.stop] *)
Definition stop : M t unit :=
  log INFO "Stopping monitor..." >>
  modify (set_running false).

(** The [while self.running] loop of [start_monitoring], run over the
    polls the outside supplies.  The result is [true] when the loop has
    been left and [false] when the polls ran out with the loop still
    running.  A device whose mapping is empty is falsy in Python; it has no
    ID_BUS, so the handler would ignore it all the same. *)
Fixpoint monitor_loop (polls : list Poll) : M t bool :=
  let* self := get in
  if negb (running self) then ret true
  else
    match polls with
    | [] => ret false
    | p :: rest =>
        let* continue :=
          try_except_Exception
            ((if stop_requested p then stop else ret tt) >>
             call env Monitor_poll >>
             match polled p with
             | Some (action, device) =>
                 if String.eqb action "add" || String.eqb action "remove"
                 then handle_device_event (clock p) action device
                 else ret tt
             | None => ret tt
             end >>
             ret true)
            (fun e =>
               let* self' := get in
               (if running self' then log ERROR ("Error in monitor loop: " ++ exn_str e)
                else ret tt) >>
               ret false) in
        if continue then monitor_loop rest else ret true
    end.

(** [KeyboardMonitor.start_monitoring] *)
Definition start_monitoring (devices : list (gmap string string))
    (polls : list Poll) : M t unit :=
  let* self := get in
  log INFO "Starting USB keyboard monitoring..." >>
  log INFO ("Watching for: " ++ keyboard_name self) >>
  log INFO ("Vendor ID: " ++ vendor_id self ++ ", Product ID: " ++ model_id self) >>
  modify (set_loop true) >>
  check_initial_state devices >>
  call env Monitor_start >>
  log INFO "Monitor started. Waiting for keyboard events..." >>
  log INFO "Press Ctrl+C to stop" >>
  let* left := monitor_loop polls in
  if left then log INFO "Monitor loop exited" else ret tt.

End Methods.
End KeyboardMonitor.


(** ** The signal handler of [async_main] *)

(** The handler that [async_main] registers for SIGINT and SIGTERM; the
    local state is [shutdown_event.is_set()]. *)
Definition signal_handler : M (KeyboardMonitor.t * bool) unit :=
  let* shutdown_event := get_local in
  if negb shutdown_event then
    log INFO "Received shutdown signal, shutting down gracefully..." >>
    on_self KeyboardMonitor.stop >>
    set_local true
  else ret tt.

(** [n] deliveries of a signal. *)
Fixpoint signals (n : nat) : M (KeyboardMonitor.t * bool) unit :=
  match n with
  | O => ret tt
  | S n' => signal_handler >> signals n'
  end.

(** ** Configuration values *)

(** A value that [json.load] returns. *)
#[local] Unset Elimination Schemes.
Inductive json :=
| JNull
| JBool (b : bool)
| JNum (q : Q)
| JStr (s : string)
| JArr (l : list json)
| JObj (m : gmap string json).
#[local] Set Elimination Schemes.

(** ** setup.py

    What the functions print is not part of the model; what they read from
    the keyboard is a list of answers. *)

Module Setup.

(** How [detect_keyboards] ends: it returns, the process exits through
    [sys.exit], [input()] meets the end of its input, or an index past the
    end of a list raises. *)
Inductive Outcome (A : Type) :=
| Returned (a : A)
| SysExit (status : nat)
| EOFError
| IndexError.
Arguments Returned {A} a.
Arguments SysExit {A} status.
Arguments EOFError {A}.
Arguments IndexError {A}.

(** An entry of the list [keyboards]. *)
Record Keyboard := mkKeyboard {
  kb_vendor_id : string;
  kb_model_id : string;
  kb_vendor : string;
  kb_model : string;
  kb_device_path : string
}.

(** [s.replace('_', ' ')] *)
Fixpoint replace_underscore (s : string) : string :=
  match s with
  | EmptyString => EmptyString
  | String c s' =>
      String (if Ascii.eqb c "_" then " "%char else c) (replace_underscore s')
  end.

(** Truth value of what [device.get(k)] returns. *)
Definition truthy_str (o : option string) : bool :=
  match o with
  | Some (String _ _) => true
  | _ => false
  end.

(** The dict appended to [keyboards] for a device that passed the tests. *)
Definition keyboard_of (device : gmap string string) (device_path : string) : Keyboard :=
  {| kb_vendor_id := default "" (device !! "ID_VENDOR_ID");
     kb_model_id := default "" (device !! "ID_MODEL_ID");
     kb_vendor := replace_underscore (get_or device "ID_VENDOR" "Unknown");
     kb_model := replace_underscore (get_or device "ID_MODEL" "Unknown");
     kb_device_path := device_path |}.

(** The [for] loop of [detect_keyboards] over the listed devices, each
    with its [device_path]; [keyboards] and [seen_keyboards] are the two
    accumulators. *)
Fixpoint detect_keyboards_scan (devices : list (gmap string string * string))
    (keyboards : list Keyboard) (seen_keyboards : gset (string * string))
    : list Keyboard :=
  match devices with
  | [] => keyboards
  | (device, device_path) :: rest =>
      if bool_decide (device !! "ID_INPUT_KEYBOARD" = Some "1")
         && bool_decide (device !! "ID_BUS" = Some "usb")
      then
        let vendor_id := device !! "ID_VENDOR_ID" in
        let model_id := device !! "ID_MODEL_ID" in
        if truthy_str vendor_id && truthy_str model_id then
          let key := (default "" vendor_id, default "" model_id) in
          if bool_decide (key ∈ seen_keyboards)
          then detect_keyboards_scan rest keyboards seen_keyboards
          else detect_keyboards_scan rest
                 (keyboards ++ [keyboard_of device device_path])
                 ({[key]} ∪ seen_keyboards)
        else detect_keyboards_scan rest keyboards seen_keyboards
      else detect_keyboards_scan rest keyboards seen_keyboards
  end.

(** The selection loop of [detect_keyboards]; an answer is what
    [int(input(...).strip())] gives: an integer, or [None] when it raises
    ValueError or the user interrupts. *)
Fixpoint select_keyboard (keyboards : list Keyboard) (answers : list (option Z))
    : Outcome Keyboard :=
  match answers with
  | [] => EOFError
  | None :: _ => SysExit 1
  | Some choice :: rest =>
      let idx := (choice - 1)%Z in
      if (0 <=? idx)%Z && (idx <? Z.of_nat (length keyboards))%Z then
        match keyboards !! Z.to_nat idx with
        | Some kb => Returned kb
        | None => IndexError
        end
      else select_keyboard keyboards rest
  end.

(** [detect_keyboards] *)
Definition detect_keyboards (devices : list (gmap string string * string))
    (answers : list (option Z)) : Outcome Keyboard :=
  let keyboards := detect_keyboards_scan devices [] ∅ in
  match keyboards with
  | [] => SysExit 1
  | [kb] => Returned kb
  | _ => select_keyboard keyboards answers
  end.

(** The dict that [save_config] builds, dumps and returns. *)
Definition save_config (tv_ip : string) (keyboard : Keyboard) : json :=
  JObj (<["tv_ip" := JStr tv_ip]>
       (<["keyboard" :=
            JObj (<["vendor_id" := JStr (kb_vendor_id keyboard)]>
                 (<["model_id" := JStr (kb_model_id keyboard)]>
                 (<["name" := JStr (kb_vendor keyboard ++ " " ++ kb_model keyboard)]> ∅)))]>
       (<["hdmi" :=
            JObj (<["connected" := JStr "com.webos.app.hdmi2"]>
                 (<["disconnected" := JStr "com.webos.app.hdmi3"]> ∅))]>
       (<["screen" := JObj (<["turn_on_when_connected" := JBool true]> ∅)]> ∅)))).

(** What one call of [input()] does: it returns the line typed, or Ctrl-C
    makes it raise KeyboardInterrupt.  A line is the list of its
    characters. *)
Inductive Answer (char : Type) :=
| Line (s : list char)
| CtrlC.
Arguments Line {char} s.
Arguments CtrlC {char}.

(** How [discover_tv] ends: it returns, or an error raised by [input()]
    passes through it. *)
Inductive Asked (A : Type) :=
| Given (a : A)
| RaisesEOFError
| RaisesKeyboardInterrupt.
Arguments Given {A} a.
Arguments RaisesEOFError {A}.
Arguments RaisesKeyboardInterrupt {A}.

Section DiscoverTv.

(** Which characters [str.strip] removes is decided by the Python runtime
    ([str.isspace], from its Unicode tables), not by code of this
    repository: the test is a parameter. *)
Context {char : Type} (isspace : char -> bool).

(** [s.lstrip()] *)
Fixpoint lstrip (s : list char) : list char :=
  match s with
  | [] => []
  | c :: s' => if isspace c then lstrip s' else s
  end.

(** [s.rstrip()] *)
Fixpoint rstrip (s : list char) : list char :=
  match s with
  | [] => []
  | c :: s' =>
      match rstrip s' with
      | [] => if isspace c then [] else [c]
      | r => c :: r
      end
  end.

(** [s.strip()] *)
Definition strip (s : list char) : list char := rstrip (lstrip s).

(** [discover_tv]; [inputs] tells what each call of [input()] does, and
    after the last of them the input is at its end. *)
Fixpoint discover_tv (inputs : list (Answer char)) : Asked (list char) :=
  match inputs with
  | [] => RaisesEOFError
  | CtrlC :: _ => RaisesKeyboardInterrupt
  | Line line :: rest =>
      let tv_ip := strip line in
      match tv_ip with
      | _ :: _ => Given tv_ip
      | [] => discover_tv rest
      end
  end.

End DiscoverTv.

(** [c.isspace()] of CPython 3 for the character with code point [c]. *)
Definition unicode_isspace (c : N) : bool :=
  ((9 <=? c) && (c <=? 13) || (28 <=? c) && (c <=? 32)
   || (c =? 133) || (c =? 160) || (c =? 5760)
   || (8192 <=? c) && (c <=? 8202)
   || (c =? 8232) || (c =? 8233) || (c =? 8239) || (c =? 8287) || (c =? 12288))%N.

(** The pair kept in [seen_keyboards] for an entry. *)
Definition key_of (kb : Keyboard) : string * string := (kb_vendor_id kb, kb_model_id kb).

(** A device that [detect_keyboards] lists: a USB keyboard with both
    identifiers present and not empty. *)
Definition listable (device : gmap string string) : Prop :=
  device !! "ID_INPUT_KEYBOARD" = Some "1" /\
  device !! "ID_BUS" = Some "usb" /\
  truthy_str (device !! "ID_VENDOR_ID") = true /\
  truthy_str (device !! "ID_MODEL_ID") = true.

End Setup.

(** ** Reading the configuration in [async_main] *)

Inductive ConfigError :=
| KeyError (key : string)     (* config[key] on a dict without the key *)
| TypeError                   (* config[key] on a value that is no dict *)
| AttributeError.             (* .get or .lower on a value that has none *)

(** [v[key]] *)
Definition subscript (v : json) (key : string) : ConfigError + json :=
  match v with
  | JObj m =>
      match m !! key with
      | Some x => inr x
      | None => inl (KeyError key)
      end
  | _ => inl TypeError
  end.

(** [v.get(key, d)] *)
Definition get_default (v : json) (key : string) (d : json) : ConfigError + json :=
  match v with
  | JObj m => inr (default d (m !! key))
  | _ => inl AttributeError
  end.

(** Truth value of a JSON value. *)
Definition truthy (v : json) : bool :=
  match v with
  | JNull => false
  | JBool b => b
  | JNum q => negb (Qeq_bool q 0)
  | JStr s => negb (String.eqb s "")
  | JArr l => match l with [] => false | _ => true end
  | JObj m => negb (bool_decide (m = ∅))
  end.

Inductive Built :=
| Objects (tv_switcher : TVSwitcher.t) (keyboard_monitor : KeyboardMonitor.t)
| Raises (e : ConfigError)
| NotModelled.   (* an address, input identifier or name that is no string *)

Definition bind_config {A} (r : ConfigError + A) (k : A -> Built) : Built :=
  match r with
  | inl e => Raises e
  | inr a => k a
  end.

(** The two constructor calls of [async_main], with the arguments
    evaluated in the order they are written; [KeyboardMonitor.__init__]
    calls [.lower()] on the two identifiers. *)
Definition build_objects (config : json) : Built :=
  bind_config (subscript config "tv_ip") (fun tv_ip =>
  bind_config (subscript config "hdmi") (fun hdmi =>
  bind_config (subscript hdmi "connected") (fun hdmi_connected =>
  bind_config (subscript config "hdmi") (fun hdmi' =>
  bind_config (subscript hdmi' "disconnected") (fun hdmi_disconnected =>
  bind_config (get_default config "screen" (JObj ∅)) (fun screen =>
  bind_config (get_default screen "turn_on_when_connected" (JBool true)) (fun turn_on =>
  bind_config (subscript config "keyboard") (fun keyboard =>
  bind_config (subscript keyboard "vendor_id") (fun vendor_id =>
  bind_config (subscript config "keyboard") (fun keyboard' =>
  bind_config (subscript keyboard' "model_id") (fun model_id =>
  bind_config (subscript config "keyboard") (fun keyboard'' =>
  bind_config (subscript keyboard'' "name") (fun name =>
  match vendor_id, model_id with
  | JStr vendor_id, JStr model_id =>
      match tv_ip, hdmi_connected, hdmi_disconnected, name with
      | JStr tv_ip, JStr hdmi_connected, JStr hdmi_disconnected, JStr name =>
          let tv_switcher :=
            TVSwitcher.__init__ tv_ip hdmi_connected hdmi_disconnected (truthy turn_on) in
          Objects tv_switcher
            (KeyboardMonitor.__init__ vendor_id model_id name tv_switcher)
      | _, _, _, _ => NotModelled
      end
  | _, _ => Raises AttributeError
  end))))))))))))).


(** ** Vocabulary of the properties *)

(** Every error the outside raises is an instance of [Exception], as the
    errors of the TV client, the storage and udev are. *)
Definition good_env (env : Env) : Prop :=
  forall n c e, env n c = Some e -> is_Exception e = true.

(** [starts_with p s]: the string [s] begins with [p]. *)
Fixpoint starts_with (p s : string) : bool :=
  match p with
  | EmptyString => true
  | String a p' =>
      match s with
      | EmptyString => false
      | String b s' => Ascii.eqb a b && starts_with p' s'
      end
  end.

(** The first statement of [switch_input] logs its argument; the record
    marks one invocation of the switch executor and tells its target. *)
Definition switch_action_of (e : Event) : option bool :=
  match e with
  | ELog INFO msg =>
      if starts_with "Keyboard connected, switching to " msg then Some true
      else if starts_with "Keyboard disconnected, switching to " msg then Some false
      else None
  | _ => None
  end.

Fixpoint switch_actions (evs : list Event) : list bool :=
  match evs with
  | [] => []
  | e :: rest =>
      match switch_action_of e with
      | Some b => b :: switch_actions rest
      | None => switch_actions rest
      end
  end.

Definition is_monitor_call (e : Event) : bool :=
  match e with
  | ECall Monitor_start _ | ECall Monitor_poll _ => true
  | _ => false
  end.

Definition is_disconnect_call (e : Event) : bool :=
  match e with
  | ECall (client_disconnect _) _ => true
  | _ => false
  end.

(** Number of underlying [client.disconnect()] calls among the events. *)
Definition disconnect_calls (evs : list Event) : nat :=
  length (filter is_disconnect_call evs).

(** Two characters are equal up to case. *)
Definition same_letter (a b : ascii) : bool :=
  let x := nat_of_ascii a in
  let y := nat_of_ascii b in
  (x =? y)%nat
  || ((65 <=? x)%nat && (x <=? 90)%nat && (y =? x + 32)%nat)
  || ((65 <=? y)%nat && (y <=? 90)%nat && (x =? y + 32)%nat).

(** Two strings are equal up to the case of their letters. *)
Fixpoint ci_eq (s t : string) : bool :=
  match s, t with
  | EmptyString, EmptyString => true
  | String a s', String b t' => same_letter a b && ci_eq s' t'
  | _, _ => false
  end.

(** The target identity, in the words of the filtering rule: usb bus,
    keyboard capability, vendor and model equal up to case.  A missing
    identifier reads as the empty string. *)
Definition matches_identity (vendor model : string) (device : gmap string string) : Prop :=
  device !! "ID_BUS" = Some "usb" /\
  device !! "ID_INPUT_KEYBOARD" = Some "1" /\
  ci_eq (get_or device "ID_VENDOR_ID" "") vendor = true /\
  ci_eq (get_or device "ID_MODEL_ID" "") model = true.

(** [n] invocations of [TVSwitcher.cleanup], one after the other, each
    run to its end on the object the previous one left, whether it
    returned or raised. *)
Fixpoint cleanup_n (env : Env) (n : nat) (sw : TVSwitcher.t) (w : World)
    : TVSwitcher.t * World :=
  match n with
  | O => (sw, w)
  | Datatypes.S n' =>
      match TVSwitcher.cleanup env sw w with
      | (_, sw', w') => cleanup_n env n' sw' w'
      end
  end.

(** The handler run on a sequence of udev events, each with the clock
    reading of its arrival, as the monitor loop runs it. *)
Fixpoint handle_device_events (evs : list (Q * string * gmap string string))
    : M KeyboardMonitor.t unit :=
  match evs with
  | [] => ret tt
  | (now, action, device) :: rest =>
      KeyboardMonitor.handle_device_event now action device >>
      handle_device_events rest
  end.

(** The target state an event direction maps to. *)
Definition direction (b : bool) : string := if b then "add" else "remove".

(** No event is a call on the udev monitor. *)
Definition no_monitor_call (evs : list Event) : bool :=
  forallb (fun e => negb (is_monitor_call e)) evs.

(** Every failed release is followed by some log record. *)
Definition release_failures_logged (evs : list Event) : Prop :=
  forall newer h e older,
    evs = newer ++ ECall (client_disconnect h) (Some e) :: older ->
    exists lvl msg, In (ELog lvl msg) newer.

(** A computation only adds events in front of those already there. *)
Definition appends {S A} (m : M S A) : Prop :=
  forall s w, exists new, events (snd (m s w)) = new ++ events w.

(** Invocations of [switch_input], one after the other, each run to its
    end on the object the previous one left. *)
Fixpoint switch_inputs (env : Env) (targets : list bool) (sw : TVSwitcher.t) (w : World)
    : TVSwitcher.t * World :=
  match targets with
  | [] => (sw, w)
  | connected :: rest =>
      match TVSwitcher.switch_input env connected sw w with
      | (_, sw', w') => switch_inputs env rest sw' w'
      end
  end.

(** Counting events of one kind. *)
Definition count_events (p : Event -> bool) (evs : list Event) : nat :=
  length (filter p evs).

Definition is_async_init_call (e : Event) : bool :=
  match e with ECall StorageSqliteDict_async_init _ => true | _ => false end.

Definition is_launch_call (e : Event) : bool :=
  match e with ECall (client_launch_app _ _) _ => true | _ => false end.

Definition is_log (e : Event) : bool :=
  match e with ELog _ _ => true | ECall _ _ => false end.

Definition is_poll_call (e : Event) : bool :=
  match e with ECall Monitor_poll _ => true | _ => false end.

Definition is_poll_or_log (e : Event) : bool :=
  match e with
  | ELog _ _ | ECall Monitor_poll _ => true
  | _ => false
  end.

(** The switch targets, oldest first, never repeat the one before;
    [prev] is the tracked state they start from. *)
Fixpoint alternates (prev : option bool) (targets : list bool) : bool :=
  match targets with
  | [] => true
  | b :: rest => negb (bool_decide (prev = Some b)) && alternates (Some b) rest
  end.

(** Number of polls the loop can make before a stop request ends it. *)
Fixpoint polls_until_stop (polls : list Poll) : nat :=
  match polls with
  | [] => 0
  | p :: rest => if stop_requested p then 1 else S (polls_until_stop rest)
  end.

(** One pass of the [while] loop of [start_monitoring]: the [try] block
    and its handler; the result tells whether the loop goes on. *)
Definition poll_once (env : Env) (p : Poll) : M KeyboardMonitor.t bool :=
  try_except_Exception
    ((if stop_requested p then KeyboardMonitor.stop else ret tt) >>
     call env Monitor_poll >>
     match polled p with
     | Some (action, device) =>
         if String.eqb action "add" || String.eqb action "remove"
         then KeyboardMonitor.handle_device_event (clock p) action device
         else ret tt
     | None => ret tt
     end >>
     ret true)
    (fun e =>
       let* self' := get in
       (if KeyboardMonitor.running self'
        then log ERROR ("Error in monitor loop: " ++ exn_str e)
        else ret tt) >>
       ret false).

(** The calls [switch_input] makes before it reaches the wake call. *)
Definition is_setup_call (c : Call) : bool :=
  match c with
  | StorageSqliteDict_async_init | WebOsClient_create _ | client_connect _ => true
  | _ => false
  end.

(** ** Scenarios *)

Definition world0 : World := {| events := []; calls_made := 0; scheduled := [] |}.

Definition demo_switcher : TVSwitcher.t :=
  TVSwitcher.__init__ "192.168.1.50" "com.webos.app.hdmi2" "com.webos.app.hdmi3" true.

Definition env_ok : Env := fun _ _ => None.

Definition wake_error : exn := Exn true "wake failed".
Definition launch_error : exn := Exn true "launch failed".
Definition release_error : exn := Exn true "release failed".
Definition connect_error : exn := Exn true "connect failed".

Definition env_wake_fails : Env :=
  fun _ c => match c with client_turn_screen_on _ => Some wake_error | _ => None end.

Definition env_launch_and_release_fail : Env :=
  fun _ c =>
    match c with
    | client_launch_app _ _ => Some launch_error
    | client_disconnect _ => Some release_error
    | _ => None
    end.

Definition env_release_fails_once : Env :=
  fun n c =>
    match c with
    | client_disconnect _ => if (n =? 5)%nat then Some release_error else None
    | _ => None
    end.

Definition env_wake_and_release_fail : Env :=
  fun _ c =>
    match c with
    | client_turn_screen_on _ => Some wake_error
    | client_disconnect _ => Some release_error
    | _ => None
    end.

Definition env_connect_fails : Env :=
  fun _ c => match c with client_connect _ => Some connect_error | _ => None end.

Definition env_release_fails : Env :=
  fun _ c => match c with client_disconnect _ => Some release_error | _ => None end.

Definition demo_keyboard : gmap string string :=
  <["ID_BUS" := "usb"]> (<["ID_INPUT_KEYBOARD" := "1"]>
  (<["ID_VENDOR_ID" := "04D9"]> (<["ID_MODEL_ID" := "a0f8"]> ∅))).

Definition demo_mouse : gmap string string :=
  <["ID_BUS" := "usb"]> (<["ID_INPUT_MOUSE" := "1"]>
  (<["ID_VENDOR_ID" := "046d"]> (<["ID_MODEL_ID" := "c52b"]> ∅))).

Definition demo_monitor : KeyboardMonitor.t :=
  KeyboardMonitor.__init__ "04d9" "A0F8" "Demo Keyboard" demo_switcher.

(** A switcher that holds a client, as [TVSwitcher.connect] leaves it. *)
Definition demo_connected_switcher : TVSwitcher.t :=
  TVSwitcher.set_client (Some 7%nat) demo_switcher.

(** What udev lists at startup, and one quiet poll. *)
Definition demo_devices : list (gmap string string) := [demo_mouse; demo_keyboard].
Definition demo_polls : list Poll :=
  [{| stop_requested := false; polled := None; clock := 1000 |}].

(** The monitor once [start_monitoring] has stored the event loop. *)
Definition demo_running_monitor : KeyboardMonitor.t :=
  KeyboardMonitor.set_loop true demo_monitor.

Definition cancelled_error : exn := Exn false "cancelled".
Definition poll_error : exn := Exn true "udev monitor failed".

Definition env_cancelled_at_launch : Env :=
  fun _ c => match c with client_launch_app _ _ => Some cancelled_error | _ => None end.

Definition env_poll_fails : Env :=
  fun _ c => match c with Monitor_poll => Some poll_error | _ => None end.

Definition demo_cancelled_run : Res bool * TVSwitcher.t * World :=
  TVSwitcher.switch_input env_cancelled_at_launch true demo_switcher world0.

Definition demo_connect_run : Res bool * TVSwitcher.t * World :=
  TVSwitcher.connect env_ok demo_switcher world0.

(** Three polls; the signal arrives during the second. *)
Definition demo_stop_polls : list Poll :=
  [{| stop_requested := false; polled := None; clock := 1000 |};
   {| stop_requested := true; polled := Some ("add", demo_keyboard); clock := 1001 |};
   {| stop_requested := false; polled := None; clock := 1002 |}].

Definition demo_events : list (Q * string * gmap string string) :=
  [(1000, "add", demo_keyboard);
   (1000 + (1 # 10), "add", demo_keyboard);
   (1000 + (9 # 10), "remove", demo_keyboard)]%Q.

Definition demo_setup_devices : list (gmap string string * string) :=
  [(demo_mouse, "/devices/usb1/input/input7");
   (demo_keyboard, "/devices/usb1/input/input8")].

Definition demo_detected : Setup.Keyboard :=
  Setup.keyboard_of demo_keyboard "/devices/usb1/input/input8".

(** ** Tactics *)

Ltac unfold_py :=
  cbv [TVSwitcher.switch_input TVSwitcher.initialize_storage TVSwitcher.connect
       TVSwitcher.disconnect TVSwitcher.cleanup
       bind ret get modify try_except_Exception try_except try_finally
       with_local on_self get_local set_local log call new_client
       run_coroutine_threadsafe
       TVSwitcher.set_client TVSwitcher.set_storage TVSwitcher.set_cleanup_done
       TVSwitcher.tv_ip TVSwitcher.hdmi_connected TVSwitcher.hdmi_disconnected
       TVSwitcher.turn_on_screen TVSwitcher.client TVSwitcher.storage
       TVSwitcher._cleanup_done
       events calls_made scheduled fst snd andb].

(** Case analysis on the next answer of the environment. *)
Ltac env_case env Hgood :=
  match goal with
  | |- context [env ?n ?c] =>
      let E := fresh "E" in
      let e := fresh "e" in
      destruct (env n c) as [e|] eqn:E;
      [ try rewrite (Hgood _ _ _ E) | ]
  end.

Ltac env_cases env Hgood := repeat (env_case env Hgood; unfold_py).

(** The events in front of [old] in [l]. *)
Ltac events_before l old :=
  match l with
  | old => constr:(@nil Event)
  | ?x :: ?t => let r := events_before t old in constr:(x :: r)
  end.

(** Case analysis on the next answer of an arbitrary environment and on
    the class of what it raises. *)
Ltac env_case_any env :=
  match goal with
  | |- context [env ?n ?c] =>
      let E := fresh "E" in
      let e := fresh "e" in
      destruct (env n c) as [e|] eqn:E;
      [ try (destruct (is_Exception e) eqn:?) | ]
  end.

Ltac known_classes :=
  repeat match goal with
         | H : is_Exception ?e = _ |- context [is_Exception ?e] => rewrite H
         end.

Ltac env_cases_any env :=
  repeat (env_case_any env; unfold_py; known_classes; unfold_py).

(** The same run under a second environment that agrees with the first
    except on the wake call. *)
Ltac other_env_step env Hgood env' Hgood' Hagree :=
  match goal with
  | |- context [env' ?n ?c] =>
      first [ rewrite (Hagree n c) by (intros ?; discriminate);
              match goal with
              | E : env n c = Some _ |- _ => rewrite E; try rewrite (Hgood _ _ _ E)
              | E : env n c = None |- _ => rewrite E
              end
            | env_case env' Hgood' ]
  end.

Ltac other_env env Hgood env' Hgood' Hagree :=
  repeat (other_env_step env Hgood env' Hgood' Hagree; unfold_py).

Ltac in_cases :=
  repeat match goal with
         | H : In _ (_ :: _) |- _ =>
             destruct H as [H|H];
             [ try discriminate H; try (inversion H; subst; clear H) | ]
         | H : In _ [] |- _ => destruct H
         end.

(** A failed call among the events that is not the wake call. *)
Ltac pick_failure :=
  match goal with
  | |- exists c e, In (ECall c (Some e)) ?l /\ _ =>
      let rec go l :=
        match l with
        | ECall ?c (Some ?e) :: ?t =>
            first [ solve [exists c, e; split; [simpl; eauto 20 | intros ?; discriminate]]
                  | go t ]
        | _ :: ?t => go t
        end in
      go l
  end.

(** A list of events cut in front of two given neighbours. *)
Ltac split_events :=
  match goal with
  | |- exists newer older, ?l = newer ++ _ =>
      let rec go pre t :=
        first [ exists pre; eexists; reflexivity
              | match t with
                | ?a :: ?t' => let pre' := eval simpl in (pre ++ [a]) in go pre' t'
                end ] in
      go (@nil Event) l
  end.

(** Refutes [Honly], which says that only wake calls failed, with a failed
    call among the events that is not one. *)
Ltac only_wake_failed Honly :=
  match type of Honly with
  | forall c e, In (ECall c (Some e)) ?l -> _ =>
      let rec go l :=
        match l with
        | ECall ?c (Some ?e) :: ?t =>
            first [ solve [destruct (Honly c e) as [? Heq];
                           [simpl; eauto 20 | discriminate Heq]]
                  | go t ]
        | _ :: ?t => go t
        end in
      go l
  end.

(** Refutes [Hno], which says that no call before the wake call failed,
    with a failed one among the events. *)
Ltac setup_call_failed Hno :=
  match type of Hno with
  | forall c e, In (ECall c (Some e)) ?l -> _ =>
      let rec go l :=
        match l with
        | ECall ?c (Some ?e) :: ?t =>
            first [ solve [assert (Hs : is_setup_call c = false)
                             by (apply (Hno c e); simpl; eauto 20);
                           discriminate Hs]
                  | go t ]
        | _ :: ?t => go t
        end in
      go l
  end.

Ltac unfold_km :=
  cbv [KeyboardMonitor.handle_device_event KeyboardMonitor.stop
       bind ret get modify log run_coroutine_threadsafe
       KeyboardMonitor.set_tv_switcher KeyboardMonitor.set_keyboard_connected
       KeyboardMonitor.set_running KeyboardMonitor.set_loop
       KeyboardMonitor.set_last_event_time].

Ltac give_new_events :=
  match goal with
  | |- exists new, ?l = new ++ ?old /\ _ =>
      let p := events_before l old in
      exists p; split; [reflexivity|]
  end.

Ltac give_new_events_evar :=
  match goal with
  | |- ?l = ?ev ++ ?old /\ _ =>
      let p := events_before l old in
      unify ev p; split; [reflexivity|]
  end.

Ltac start_switch sw w connected :=
  destruct sw as [? ? ? [] ? [?|] ?], w as [? ? ?], connected;
  unfold_py.

Ltac finish_run :=
  do 3 eexists; split; [reflexivity|]; unfold_py; give_new_events.

(** A run on closed arguments, by evaluation. *)
Ltac compute_run :=
  match goal with
  | |- exists sw' w', ?run = _ /\ _ =>
      let H := fresh "Hrun" in
      destruct run as [[? ?] ?] eqn:H; vm_compute in H;
      injection H as <- <- <-; do 2 eexists; split; [reflexivity|]
  end.

(** * Properties *)

(** ** Events *)

Lemma switch_actions_app (a b : list Event) :
  switch_actions (a ++ b) = switch_actions a ++ switch_actions b.
Proof.
  induction a as [|e a IH]; simpl; [reflexivity|].
  destruct (switch_action_of e); simpl; congruence.
Qed.

Lemma no_monitor_call_app (a b : list Event) :
  no_monitor_call (a ++ b) = no_monitor_call a && no_monitor_call b.
Proof. apply forallb_app. Qed.

Lemma app_cons_not_self {A} (new old : list A) : old = new ++ old -> new = [].
Proof.
  intros H. apply (f_equal (@length A)) in H. rewrite length_app in H.
  destruct new; [reflexivity | simpl in H; lia].
Qed.

(** ** The switch executor *)

Section SwitchExecutor.
Variable env : Env.
Hypothesis Hgood : good_env env.

(** C1 (amended).  In every invocation of [switch_input] whose errors are
    [Exception]s: a handle that [WebOsClient.create] returned is connected
    and a disconnect is attempted on it, whatever fails afterwards; the
    outcome is [True] only if the input-switch call completed, and it is
    [True] whenever that call completed and no release failed; when the
    input-switch call did not complete, a failed release is the newest
    event (nothing is logged for it) and the outcome stays [False]. *)
Theorem switch_input_release_and_outcome (connected : bool) (sw : TVSwitcher.t)
    (w : World) :
  exists b sw' w',
    TVSwitcher.switch_input env connected sw w = (Ret b, sw', w') /\
    exists new,
      events w' = new ++ events w /\
      (forall ip, In (ECall (WebOsClient_create ip) None) new ->
         exists h r r', In (ECall (client_connect h) r') new /\
                        In (ECall (client_disconnect h) r) new) /\
      (b = true -> exists h app, In (ECall (client_launch_app h app) None) new) /\
      ((exists h app, In (ECall (client_launch_app h app) None) new) ->
       (forall h e, ~ In (ECall (client_disconnect h) (Some e)) new) ->
       b = true) /\
      (forall h e, In (ECall (client_disconnect h) (Some e)) new ->
         (forall h' app, ~ In (ECall (client_launch_app h' app) None) new) ->
         b = false /\ exists older, new = ECall (client_disconnect h) (Some e) :: older).
Proof.
  start_switch sw w connected; env_cases env Hgood; finish_run.
  all: split; [|split; [|split]].
  all: match goal with
       | |- forall ip, In (ECall (WebOsClient_create ip) None) _ -> _ =>
           intros ? Hin; in_cases; do 3 eexists; simpl; eauto 20
       | |- _ = true -> _ =>
           intros Hb; try discriminate Hb; do 2 eexists; simpl; eauto 20
       | |- (exists _ _, _) -> _ =>
           intros [? [? Hin]] Hno; in_cases; try reflexivity;
           exfalso; eapply Hno; simpl; eauto 20
       | |- forall h e, In _ _ -> _ =>
           intros ? ? Hin Hno; in_cases;
           try (exfalso; eapply Hno; simpl; eauto 20; fail);
           (split; [reflexivity | eexists; reflexivity])
       end.
Qed.

(** C2 (amended).  For every target state and every behaviour of the
    client whose errors are [Exception]s, [switch_input] returns a boolean
    and raises nothing; the boolean is [False] exactly when some external
    call other than the wake call failed; a failed wake call is followed at
    once by its warning record, and when nothing else failed the boolean is
    [True]. *)
Theorem switch_input_boolean_outcome (connected : bool) (sw : TVSwitcher.t)
    (w : World) :
  exists b sw' w',
    TVSwitcher.switch_input env connected sw w = (Ret b, sw', w') /\
    exists new,
      events w' = new ++ events w /\
      (b = false <->
       exists c e, In (ECall c (Some e)) new /\ forall h, c <> client_turn_screen_on h) /\
      (forall h e, In (ECall (client_turn_screen_on h) (Some e)) new ->
         exists newer older,
           new = newer ++ ELog WARNING ("Could not turn screen on: " ++ exn_str e)
                          :: ECall (client_turn_screen_on h) (Some e) :: older) /\
      ((forall c e, In (ECall c (Some e)) new -> exists h, c = client_turn_screen_on h) ->
       b = true).
Proof.
  start_switch sw w connected; env_cases env Hgood; finish_run.
  all: split; [|split].
  all: match goal with
       | |- _ <-> _ =>
           split;
           [ intros Hb; try discriminate Hb; pick_failure
           | intros [? [? [Hin Hne]]]; in_cases; try reflexivity;
             exfalso; eapply Hne; reflexivity ]
       | |- forall h e, In _ _ -> exists newer older, _ =>
           intros ? ? Hin; in_cases; split_events
       | |- _ -> _ = true =>
           intros Honly; try reflexivity; exfalso; only_wake_failed Honly
       end.
Qed.

(** The wake call under every behaviour of the client whose errors are
    [Exception]s.  It is made only when the target state is present and
    the option is on, and then on every connected handle; unless storage
    init, create or connect failed, the input-switch call is made, with the
    identifier of the target state; when the wake call fails, the
    input-switch call is made on the same handle and an outcome [True]
    means that call completed; the outcome is the same under every
    behaviour of the client that differs only in what the wake call
    does. *)
Theorem switch_input_wake_isolated (connected : bool) (sw : TVSwitcher.t)
    (w : World) :
  exists b sw' w',
    TVSwitcher.switch_input env connected sw w = (Ret b, sw', w') /\
    exists new,
      events w' = new ++ events w /\
      (forall h r, In (ECall (client_turn_screen_on h) r) new ->
         connected = true /\ TVSwitcher.turn_on_screen sw = true) /\
      (connected = true -> TVSwitcher.turn_on_screen sw = true ->
       forall h, In (ECall (client_connect h) None) new ->
         exists r, In (ECall (client_turn_screen_on h) r) new) /\
      ((forall c e, In (ECall c (Some e)) new -> is_setup_call c = false) ->
       exists h r,
         In (ECall (client_launch_app h
                      (if connected then TVSwitcher.hdmi_connected sw
                       else TVSwitcher.hdmi_disconnected sw)) r) new) /\
      (forall h e, In (ECall (client_turn_screen_on h) (Some e)) new ->
         exists app r, In (ECall (client_launch_app h app) r) new /\
                       (b = true -> r = None)) /\
      (forall env', good_env env' ->
         (forall n c, (forall h, c <> client_turn_screen_on h) -> env' n c = env n c) ->
         exists sw'' w'',
           TVSwitcher.switch_input env' connected sw w = (Ret b, sw'', w'')).
Proof.
  start_switch sw w connected; env_cases env Hgood; finish_run.
  all: split; [|split; [|split; [|split]]].
  all: match goal with
       | |- (forall c e, In _ _ -> is_setup_call c = false) -> _ =>
           intros Hno;
           first [ solve [do 2 eexists; simpl; eauto 20]
                 | exfalso; setup_call_failed Hno ]
       | |- forall h r, In _ _ -> _ /\ _ =>
           intros ? ? Hin; in_cases; split; reflexivity
       | |- _ = true -> _ = true -> _ =>
           intros Hc Ht ? Hin; try discriminate Hc; try discriminate Ht;
           in_cases; eexists; simpl; eauto 20
       | |- forall h e, In _ _ -> exists _ _, _ =>
           intros ? ? Hin; in_cases; do 2 eexists;
           (split; [simpl; eauto 20 | intros Hb; first [reflexivity | discriminate Hb]])
       | |- forall env', _ =>
           intros env' Hgood' Hagree; other_env env Hgood env' Hgood' Hagree;
           do 2 eexists; reflexivity
       end.
Qed.

End SwitchExecutor.

(** The claim C1 as written fails where the input switch and then the
    release fail: the release was attempted and failed, the outcome is
    [False], and no log record follows the failed release. *)
Lemma switch_input_release_failure_not_logged :
  exists sw' w',
    TVSwitcher.switch_input env_launch_and_release_fail false demo_switcher world0
      = (Ret false, sw', w') /\
    In (ECall (client_disconnect 1) (Some release_error)) (events w') /\
    ~ release_failures_logged (events w').
Proof.
  compute_run. split; [simpl; auto|].
  intros Hlogged.
  destruct (Hlogged [] 1%nat release_error _ eq_refl) as (lvl & msg & []).
Qed.

(** The release that follows a completed input switch sits inside the
    [try]: when it raises, the handler runs, a second disconnect is
    attempted and the outcome is [False]. *)
Example switch_input_release_failure_after_switch :
  exists sw' w',
    TVSwitcher.switch_input env_release_fails_once true demo_switcher world0
      = (Ret false, sw', w') /\
    In (ECall (client_launch_app 1 "com.webos.app.hdmi2") None) (events w') /\
    In (ELog INFO "Successfully switched to com.webos.app.hdmi2") (events w') /\
    In (ELog ERROR "Failed to switch input: release failed") (events w') /\
    disconnect_calls (events w') = 2%nat.
Proof.
  compute_run. simpl. auto 20.
Qed.

(** C7.  Where the wake call fails and the input-switch call completes,
    the outcome is not that of the input-switch step: it is [True] when the
    disconnect that follows returns and [False] when it raises.  In the
    second run the switch is logged as done and then as failed, and a
    second disconnect is attempted: the release of the success path sits
    inside the [try], while the release of the failure path is guarded. *)
Theorem switch_input_outcome_follows_release :
  let released := TVSwitcher.switch_input env_wake_fails true demo_switcher world0 in
  let failed :=
    TVSwitcher.switch_input env_wake_and_release_fail true demo_switcher world0 in
  fst (fst released) = Ret true /\
  In (ECall (client_turn_screen_on 1) (Some wake_error)) (events (snd released)) /\
  In (ECall (client_launch_app 1 "com.webos.app.hdmi2") None) (events (snd released)) /\
  fst (fst failed) = Ret false /\
  In (ECall (client_turn_screen_on 1) (Some wake_error)) (events (snd failed)) /\
  In (ECall (client_launch_app 1 "com.webos.app.hdmi2") None) (events (snd failed)) /\
  In (ELog INFO "Successfully switched to com.webos.app.hdmi2") (events (snd failed)) /\
  In (ELog ERROR "Failed to switch input: release failed") (events (snd failed)) /\
  disconnect_calls (events (snd failed)) = 2%nat.
Proof.
  cbv zeta.
  destruct (TVSwitcher.switch_input env_wake_fails true demo_switcher world0)
    as [[r1 sw1] w1] eqn:H1.
  destruct (TVSwitcher.switch_input env_wake_and_release_fail true demo_switcher world0)
    as [[r2 sw2] w2] eqn:H2.
  vm_compute in H1, H2. injection H1 as <- <- <-. injection H2 as <- <- <-.
  simpl. auto 20.
Qed.

(** The claim C2 as written fails where only the wake call fails: a
    device-control call failed and the outcome is [True]. *)
Lemma switch_input_wake_failure_reports_success :
  exists sw' w',
    TVSwitcher.switch_input env_wake_fails true demo_switcher world0
      = (Ret true, sw', w') /\
    In (ECall (client_turn_screen_on 1) (Some wake_error)) (events w').
Proof.
  compute_run. simpl. auto 20.
Qed.

(** The amended C1 at a run where the input switch and the release fail. *)
Lemma switch_input_release_and_outcome_witness :
  good_env env_launch_and_release_fail /\
  (
    exists b sw' w',
      TVSwitcher.switch_input env_launch_and_release_fail false demo_switcher world0 = (Ret b, sw', w') /\
      exists new,
        events w' = new ++ events world0 /\
        (forall ip, In (ECall (WebOsClient_create ip) None) new ->
           exists h r r', In (ECall (client_connect h) r') new /\
                          In (ECall (client_disconnect h) r) new) /\
        (b = true -> exists h app, In (ECall (client_launch_app h app) None) new) /\
        ((exists h app, In (ECall (client_launch_app h app) None) new) ->
         (forall h e, ~ In (ECall (client_disconnect h) (Some e)) new) ->
         b = true) /\
        (forall h e, In (ECall (client_disconnect h) (Some e)) new ->
           (forall h' app, ~ In (ECall (client_launch_app h' app) None) new) ->
           b = false /\ exists older, new = ECall (client_disconnect h) (Some e) :: older)).
Proof.
  assert (Hgood : good_env env_launch_and_release_fail).
  { intros n c e. destruct c; simpl; intros H; inversion H; reflexivity. }
  split; [exact Hgood|].
  exact (switch_input_release_and_outcome env_launch_and_release_fail Hgood false demo_switcher world0).
Defined.

(** The amended C2 at a run where only the wake call fails. *)
Lemma switch_input_boolean_outcome_witness :
  good_env env_wake_fails /\
  (
    exists b sw' w',
      TVSwitcher.switch_input env_wake_fails true demo_switcher world0 = (Ret b, sw', w') /\
      exists new,
        events w' = new ++ events world0 /\
        (b = false <->
         exists c e, In (ECall c (Some e)) new /\ forall h, c <> client_turn_screen_on h) /\
        (forall h e, In (ECall (client_turn_screen_on h) (Some e)) new ->
           exists newer older,
             new = newer ++ ELog WARNING ("Could not turn screen on: " ++ exn_str e)
                            :: ECall (client_turn_screen_on h) (Some e) :: older) /\
        ((forall c e, In (ECall c (Some e)) new -> exists h, c = client_turn_screen_on h) ->
         b = true)).
Proof.
  assert (Hgood : good_env env_wake_fails).
  { intros n c e. destruct c; simpl; intros H; inversion H; reflexivity. }
  split; [exact Hgood|].
  exact (switch_input_boolean_outcome env_wake_fails Hgood true demo_switcher world0).
Defined.

(** The wake call at a run where it fails. *)
Lemma switch_input_wake_isolated_witness :
  good_env env_wake_fails /\
  (
    exists b sw' w',
      TVSwitcher.switch_input env_wake_fails true demo_switcher world0 = (Ret b, sw', w') /\
      exists new,
        events w' = new ++ events world0 /\
        (forall h r, In (ECall (client_turn_screen_on h) r) new ->
           true = true /\ TVSwitcher.turn_on_screen demo_switcher = true) /\
        (true = true -> TVSwitcher.turn_on_screen demo_switcher = true ->
         forall h, In (ECall (client_connect h) None) new ->
           exists r, In (ECall (client_turn_screen_on h) r) new) /\
        ((forall c e, In (ECall c (Some e)) new -> is_setup_call c = false) ->
         exists h r,
           In (ECall (client_launch_app h
                        (if true then TVSwitcher.hdmi_connected demo_switcher
                         else TVSwitcher.hdmi_disconnected demo_switcher)) r) new) /\
        (forall h e, In (ECall (client_turn_screen_on h) (Some e)) new ->
           exists app r, In (ECall (client_launch_app h app) r) new /\
                         (b = true -> r = None)) /\
        (forall env', good_env env' ->
           (forall n c, (forall h, c <> client_turn_screen_on h) -> env' n c = env_wake_fails n c) ->
           exists sw'' w'',
             TVSwitcher.switch_input env' true demo_switcher world0 = (Ret b, sw'', w''))).
Proof.
  assert (Hgood : good_env env_wake_fails).
  { intros n c e. destruct c; simpl; intros H; inversion H; reflexivity. }
  split; [exact Hgood|].
  exact (switch_input_wake_isolated env_wake_fails Hgood true demo_switcher world0).
Defined.

(** ** The device filter *)

Lemma initial_scan_test_eq km (d : gmap string string) :
  KeyboardMonitor.initial_scan_test km d = KeyboardMonitor.is_target_keyboard km d.
Proof.
  unfold KeyboardMonitor.initial_scan_test, KeyboardMonitor.is_target_keyboard.
  repeat case_bool_decide; reflexivity.
Qed.

(** C9.  The test written out in the startup scan and the event-path
    filter [is_target_keyboard] agree on every device record, whatever the
    monitor's target identity. *)
Theorem startup_test_agrees_with_filter (km : KeyboardMonitor.t)
    (device : gmap string string) :
  KeyboardMonitor.initial_scan_test km device =
  KeyboardMonitor.is_target_keyboard km device.
Proof.
  destruct (KeyboardMonitor.is_target_keyboard km device) eqn:Hfilter;
    rewrite initial_scan_test_eq; exact Hfilter.
Qed.

Lemma lower_ascii_code (a : ascii) :
  nat_of_ascii (lower_ascii a) =
  if (65 <=? nat_of_ascii a)%nat && (nat_of_ascii a <=? 90)%nat
  then (nat_of_ascii a + 32)%nat else nat_of_ascii a.
Proof.
  unfold lower_ascii.
  destruct ((65 <=? nat_of_ascii a)%nat && (nat_of_ascii a <=? 90)%nat) eqn:Hr;
    [|reflexivity].
  apply andb_true_iff in Hr as [_ Hr]. apply Nat.leb_le in Hr.
  apply nat_ascii_embedding. lia.
Qed.

Lemma lower_ascii_same_letter (a b : ascii) :
  lower_ascii a = lower_ascii b <-> same_letter a b = true.
Proof.
  assert (Hinj : lower_ascii a = lower_ascii b <->
                 nat_of_ascii (lower_ascii a) = nat_of_ascii (lower_ascii b)).
  { split; [congruence|]. intros H.
    rewrite <- (ascii_nat_embedding (lower_ascii a)), H.
    apply ascii_nat_embedding. }
  rewrite Hinj, !lower_ascii_code. unfold same_letter.
  destruct (65 <=? nat_of_ascii a)%nat eqn:A1, (nat_of_ascii a <=? 90)%nat eqn:A2,
           (65 <=? nat_of_ascii b)%nat eqn:B1, (nat_of_ascii b <=? 90)%nat eqn:B2;
    simpl;
    repeat match goal with
           | H : (_ <=? _)%nat = true |- _ => apply Nat.leb_le in H
           | H : (_ <=? _)%nat = false |- _ => apply Nat.leb_gt in H
           end;
    rewrite ?orb_false_r, ?orb_true_iff, ?Nat.eqb_eq; lia.
Qed.

(** Comparing the lower-cased strings is comparing up to case. *)
Lemma lower_eq_ci_eq (s t : string) : lower s = lower t <-> ci_eq s t = true.
Proof.
  revert t. induction s as [|a s IH]; intros [|b t]; simpl; try (split; congruence).
  rewrite andb_true_iff, <- IH, <- lower_ascii_same_letter.
  split; [intros H; inversion H; auto | intros [-> ->]; reflexivity].
Qed.

Lemma is_target_keyboard_iff km vendor model (d : gmap string string) :
  KeyboardMonitor.vendor_id km = lower vendor ->
  KeyboardMonitor.model_id km = lower model ->
  KeyboardMonitor.is_target_keyboard km d = true <-> matches_identity vendor model d.
Proof.
  intros Hv Hm. unfold KeyboardMonitor.is_target_keyboard, matches_identity.
  rewrite Hv, Hm, <- !lower_eq_ci_eq.
  repeat case_bool_decide; simpl; intuition congruence.
Qed.

(** ** The event handler *)

Lemma Qlt_bool_iff (a b : Q) : Qlt_bool a b = true <-> (a < b)%Q.
Proof.
  unfold Qlt_bool. rewrite negb_true_iff.
  split.
  - intros H. apply Qnot_le_lt. intros Hle. apply Qle_bool_iff in Hle. congruence.
  - intros H. destruct (Qle_bool b a) eqn:Hle; [|reflexivity].
    apply Qle_bool_iff in Hle. exfalso. exact (Qlt_not_le _ _ H Hle).
Qed.

Lemma Qlt_bool_false (a b : Q) : ~ (a < b)%Q -> Qlt_bool a b = false.
Proof.
  intros H. destruct (Qlt_bool a b) eqn:E; [|reflexivity].
  apply Qlt_bool_iff in E. contradiction.
Qed.

Lemma handle_not_target now action (d : gmap string string) km w :
  KeyboardMonitor.is_target_keyboard km d = false ->
  KeyboardMonitor.handle_device_event now action d km w = (Ret tt, km, w).
Proof.
  intros H. unfold_km. rewrite H. reflexivity.
Qed.

Lemma handle_debounced now action (d : gmap string string) km w :
  KeyboardMonitor.is_target_keyboard km d = true ->
  Qlt_bool (now - KeyboardMonitor.last_event_time km)
    (KeyboardMonitor.debounce_delay km) = true ->
  KeyboardMonitor.handle_device_event now action d km w = (Ret tt, km, w).
Proof.
  intros H1 H2. unfold_km. rewrite H1, H2. reflexivity.
Qed.

(** What an accepted event does, by direction. *)
Lemma handle_accepted now (b : bool) (d : gmap string string) km w :
  KeyboardMonitor.is_target_keyboard km d = true ->
  Qlt_bool (now - KeyboardMonitor.last_event_time km)
    (KeyboardMonitor.debounce_delay km) = false ->
  exists km' w' new,
    KeyboardMonitor.handle_device_event now (direction b) d km w = (Ret tt, km', w') /\
    events w' = new ++ events w /\ new <> [] /\
    calls_made w' = calls_made w /\
    KeyboardMonitor.last_event_time km' = now /\
    KeyboardMonitor.keyboard_connected km' = Some b /\
    KeyboardMonitor.vendor_id km' = KeyboardMonitor.vendor_id km /\
    KeyboardMonitor.model_id km' = KeyboardMonitor.model_id km /\
    KeyboardMonitor.debounce_delay km' = KeyboardMonitor.debounce_delay km /\
    KeyboardMonitor.loop km' = KeyboardMonitor.loop km /\
    scheduled w' =
      (if bool_decide (KeyboardMonitor.keyboard_connected km = Some b) then scheduled w
       else if KeyboardMonitor.loop km then b :: scheduled w else scheduled w).
Proof.
  intros H1 H2. unfold_km. rewrite H1, H2.
  destruct km as [v m nm sw kc run lp last dl], w as [evs n sch], b; simpl;
    case_bool_decide; simpl; try destruct lp; simpl;
    do 3 eexists; (split; [reflexivity|]); simpl;
    give_new_events_evar;
    repeat split; try reflexivity; try discriminate; assumption.
Qed.

Lemma handle_same_direction now (b : bool) (d : gmap string string) km w :
  KeyboardMonitor.keyboard_connected km = Some b ->
  exists km' w',
    KeyboardMonitor.handle_device_event now (direction b) d km w = (Ret tt, km', w') /\
    scheduled w' = scheduled w /\
    KeyboardMonitor.keyboard_connected km' = Some b.
Proof.
  intros Hkc.
  destruct (KeyboardMonitor.is_target_keyboard km d) eqn:Hq.
  - destruct (Qlt_bool (now - KeyboardMonitor.last_event_time km)
                (KeyboardMonitor.debounce_delay km)) eqn:Hb.
    + exists km, w. rewrite handle_debounced by assumption. auto.
    + destruct (handle_accepted now b d km w Hq Hb)
        as (km' & w' & new & Hrun & _ & _ & _ & _ & Hkc' & _ & _ & _ & _ & Hs).
      exists km', w'. rewrite bool_decide_eq_true_2 in Hs by assumption. auto.
  - exists km, w. rewrite handle_not_target by assumption. auto.
Qed.

Lemma same_direction_no_switch (b : bool) (evs : list (Q * string * gmap string string)) :
  forall km w,
    KeyboardMonitor.keyboard_connected km = Some b ->
    Forall (fun ev => snd (fst ev) = direction b) evs ->
    exists km' w',
      handle_device_events evs km w = (Ret tt, km', w') /\
      scheduled w' = scheduled w /\
      KeyboardMonitor.keyboard_connected km' = Some b.
Proof.
  induction evs as [|[[now a] d] evs IH]; intros km w Hkc Hall.
  - exists km, w. auto.
  - inversion Hall as [|? ? Ha Hrest]; subst. simpl in Ha. subst a.
    destruct (handle_same_direction now b d km w Hkc) as (km1 & w1 & Hrun & Hs & Hkc1).
    destruct (IH km1 w1 Hkc1 Hrest) as (km2 & w2 & Hrun2 & Hs2 & Hkc2).
    exists km2, w2. simpl. unfold bind. rewrite Hrun.
    split; [exact Hrun2|]. split; [congruence | exact Hkc2].
Qed.

(** C4.  For a monitor built for the identity [vendor], [model]: a device
    passes [is_target_keyboard] exactly when its bus is "usb", it declares
    keyboard capability and its vendor and model identifiers equal the
    target's up to case; an event of a device that does not pass leaves the
    monitor and the world as they were (no state change, nothing logged,
    nothing scheduled); an event of a device that passes, outside the
    debounce window, is recorded. *)
Theorem event_filter_correct km vendor model (d : gmap string string) :
  KeyboardMonitor.vendor_id km = lower vendor ->
  KeyboardMonitor.model_id km = lower model ->
  (KeyboardMonitor.is_target_keyboard km d = true <-> matches_identity vendor model d) /\
  (~ matches_identity vendor model d ->
   forall now action w,
     KeyboardMonitor.handle_device_event now action d km w = (Ret tt, km, w)) /\
  (matches_identity vendor model d ->
   forall now (b : bool) w,
     ~ (now - KeyboardMonitor.last_event_time km < KeyboardMonitor.debounce_delay km)%Q ->
     exists km' w',
       KeyboardMonitor.handle_device_event now (direction b) d km w = (Ret tt, km', w') /\
       KeyboardMonitor.keyboard_connected km' = Some b /\
       KeyboardMonitor.last_event_time km' = now).
Proof.
  intros Hv Hm.
  pose proof (is_target_keyboard_iff km vendor model d Hv Hm) as Hiff.
  split; [exact Hiff|]. split.
  - intros Hno now action w. apply handle_not_target.
    destruct (KeyboardMonitor.is_target_keyboard km d); [|reflexivity].
    exfalso. apply Hno, Hiff. reflexivity.
  - intros Hyes now b w Hacc. apply Hiff in Hyes.
    destruct (handle_accepted now b d km w Hyes (Qlt_bool_false _ _ Hacc))
      as (km' & w' & new & Hrun & _ & _ & _ & Hlast & Hkc' & _).
    exists km', w'. auto.
Qed.

(** C3.  Two qualifying events at [t] and [t + delta], any directions,
    the first accepted, the delay 0.5 s: the second is dropped (the monitor
    and the world stay as the first event left them, time stamp included,
    so the window is still measured from [t]) exactly when [delta < 0.5];
    it is accepted (recorded at [t + delta] and logged) exactly when
    [0.5 <= delta]. *)
Theorem debounce_two_events km w t delta a1 a2 (d1 d2 : gmap string string) :
  KeyboardMonitor.debounce_delay km = (1 # 2)%Q ->
  KeyboardMonitor.is_target_keyboard km d1 = true ->
  KeyboardMonitor.is_target_keyboard km d2 = true ->
  (a1 = "add" \/ a1 = "remove") ->
  (a2 = "add" \/ a2 = "remove") ->
  ~ (t - KeyboardMonitor.last_event_time km < 1 # 2)%Q ->
  exists km1 w1,
    KeyboardMonitor.handle_device_event t a1 d1 km w = (Ret tt, km1, w1) /\
    KeyboardMonitor.last_event_time km1 = t /\
    ((delta < 1 # 2)%Q <->
     KeyboardMonitor.handle_device_event (t + delta) a2 d2 km1 w1 = (Ret tt, km1, w1)) /\
    ((1 # 2 <= delta)%Q <->
     exists km2 w2 new,
       KeyboardMonitor.handle_device_event (t + delta) a2 d2 km1 w1 = (Ret tt, km2, w2) /\
       KeyboardMonitor.last_event_time km2 = (t + delta)%Q /\
       events w2 = new ++ events w1 /\ new <> []).
Proof.
  intros Hd Hq1 Hq2 Ha1 Ha2 Hacc.
  assert (Hdir : forall a, a = "add" \/ a = "remove" -> exists b, a = direction b).
  { intros a [->| ->]; [exists true | exists false]; reflexivity. }
  destruct (Hdir a1 Ha1) as [b1 ->], (Hdir a2 Ha2) as [b2 ->].
  assert (Hacc' : Qlt_bool (t - KeyboardMonitor.last_event_time km)
                    (KeyboardMonitor.debounce_delay km) = false).
  { rewrite Hd. apply Qlt_bool_false. exact Hacc. }
  destruct (handle_accepted t b1 d1 km w Hq1 Hacc')
    as (km1 & w1 & new1 & Hrun1 & _ & _ & _ & Hlast & _ & Hv & Hm & Hdl & _).
  assert (Hq2' : KeyboardMonitor.is_target_keyboard km1 d2 = true).
  { unfold KeyboardMonitor.is_target_keyboard in *. rewrite Hv, Hm. exact Hq2. }
  assert (Hwin : Qlt_bool (t + delta - KeyboardMonitor.last_event_time km1)
                   (KeyboardMonitor.debounce_delay km1) = true <-> (delta < 1 # 2)%Q).
  { rewrite Qlt_bool_iff, Hlast, Hdl, Hd.
    assert (Heq : (t + delta - t == delta)%Q) by ring.
    rewrite Heq. reflexivity. }
  exists km1, w1. split; [exact Hrun1|]. split; [exact Hlast|].
  destruct (Qlt_bool (t + delta - KeyboardMonitor.last_event_time km1)
              (KeyboardMonitor.debounce_delay km1)) eqn:Hb.
  - assert (Hlt : (delta < 1 # 2)%Q) by (apply Hwin; reflexivity).
    pose proof (handle_debounced (t + delta) (direction b2) d2 km1 w1 Hq2' Hb) as Hdrop.
    split; [split; auto|].
    split.
    + intros Hle. exfalso. exact (Qlt_not_le _ _ Hlt Hle).
    + intros (km2 & w2 & new & Hrun & _ & Hev & Hne).
      rewrite Hdrop in Hrun. inversion Hrun; subst.
      apply app_cons_not_self in Hev. contradiction.
  - assert (Hge : (1 # 2 <= delta)%Q).
    { apply Qnot_lt_le. intros Hlt. apply Hwin in Hlt. congruence. }
    destruct (handle_accepted (t + delta) b2 d2 km1 w1 Hq2' Hb)
      as (km2 & w2 & new2 & Hrun2 & Hev2 & Hne2 & _ & Hlast2 & _).
    split.
    + split.
      * intros Hlt. exfalso. exact (Qlt_not_le _ _ Hlt Hge).
      * intros Hdrop. rewrite Hdrop in Hrun2. inversion Hrun2; subst.
        apply app_cons_not_self in Hev2. contradiction.
    + split; [|auto]. intros _. exists km2, w2, new2. auto.
Qed.

(** C5.  An accepted qualifying event of direction [b], with the event
    loop in place: the tracked state becomes [b]; no switch action is
    scheduled when the tracked state was [b] already, and exactly one, with
    target [b], is scheduled when it was not; after it, whatever events of
    the same direction follow, no switch action is scheduled and the
    tracked state stays [b]. *)
Theorem presence_tracker_idempotent km w now (b : bool) (d : gmap string string) :
  KeyboardMonitor.loop km = true ->
  KeyboardMonitor.is_target_keyboard km d = true ->
  ~ (now - KeyboardMonitor.last_event_time km < KeyboardMonitor.debounce_delay km)%Q ->
  exists km' w',
    KeyboardMonitor.handle_device_event now (direction b) d km w = (Ret tt, km', w') /\
    KeyboardMonitor.keyboard_connected km' = Some b /\
    (KeyboardMonitor.keyboard_connected km = Some b -> scheduled w' = scheduled w) /\
    (KeyboardMonitor.keyboard_connected km <> Some b -> scheduled w' = b :: scheduled w) /\
    forall evs,
      Forall (fun ev => snd (fst ev) = direction b) evs ->
      exists km'' w'',
        handle_device_events evs km' w' = (Ret tt, km'', w'') /\
        scheduled w'' = scheduled w' /\
        KeyboardMonitor.keyboard_connected km'' = Some b.
Proof.
  intros Hloop Hq Hacc.
  destruct (handle_accepted now b d km w Hq (Qlt_bool_false _ _ Hacc))
    as (km' & w' & new & Hrun & _ & _ & _ & _ & Hkc' & _ & _ & _ & _ & Hs).
  exists km', w'. split; [exact Hrun|]. split; [exact Hkc'|].
  rewrite Hloop in Hs. repeat split.
  - intros Hsame. rewrite bool_decide_eq_true_2 in Hs by assumption. exact Hs.
  - intros Hdiff. rewrite bool_decide_eq_false_2 in Hs by assumption. exact Hs.
  - intros evs Hall. exact (same_direction_no_switch b evs km' w' Hkc' Hall).
Qed.

(** C4 at the demo keyboard, whose vendor identifier differs from the
    configured one in case only. *)
Lemma event_filter_correct_witness :
  KeyboardMonitor.vendor_id demo_monitor = lower "04d9" /\
  KeyboardMonitor.model_id demo_monitor = lower "A0F8" /\
  (
    (KeyboardMonitor.is_target_keyboard demo_monitor demo_keyboard = true <-> matches_identity "04d9" "A0F8" demo_keyboard) /\
    (~ matches_identity "04d9" "A0F8" demo_keyboard ->
     forall now action w,
       KeyboardMonitor.handle_device_event now action demo_keyboard demo_monitor w = (Ret tt, demo_monitor, w)) /\
    (matches_identity "04d9" "A0F8" demo_keyboard ->
     forall now (b : bool) w,
       ~ (now - KeyboardMonitor.last_event_time demo_monitor < KeyboardMonitor.debounce_delay demo_monitor)%Q ->
       exists km' w',
         KeyboardMonitor.handle_device_event now (direction b) demo_keyboard demo_monitor w = (Ret tt, km', w') /\
         KeyboardMonitor.keyboard_connected km' = Some b /\
         KeyboardMonitor.last_event_time km' = now)).
Proof.
  split; [reflexivity|]. split; [reflexivity|].
  apply (event_filter_correct demo_monitor "04d9" "A0F8" demo_keyboard); reflexivity.
Defined.

(** C3 at an attach at 1000 s and a detach 0.1 s later. *)
Lemma debounce_two_events_witness :
  KeyboardMonitor.debounce_delay demo_monitor = (1 # 2)%Q /\
  KeyboardMonitor.is_target_keyboard demo_monitor demo_keyboard = true /\
  ("add" = "add" \/ "add" = "remove") /\
  ("remove" = "add" \/ "remove" = "remove") /\
  ~ (1000 - KeyboardMonitor.last_event_time demo_monitor < 1 # 2)%Q /\
  (
    exists km1 w1,
      KeyboardMonitor.handle_device_event 1000%Q "add" demo_keyboard demo_monitor world0 = (Ret tt, km1, w1) /\
      KeyboardMonitor.last_event_time km1 = 1000%Q /\
      (((1 # 10)%Q < 1 # 2)%Q <->
       KeyboardMonitor.handle_device_event (1000%Q + (1 # 10)%Q) "remove" demo_keyboard km1 w1 = (Ret tt, km1, w1)) /\
      ((1 # 2 <= (1 # 10)%Q)%Q <->
       exists km2 w2 new,
         KeyboardMonitor.handle_device_event (1000%Q + (1 # 10)%Q) "remove" demo_keyboard km1 w1 = (Ret tt, km2, w2) /\
         KeyboardMonitor.last_event_time km2 = (1000%Q + (1 # 10)%Q)%Q /\
         events w2 = new ++ events w1 /\ new <> [])).
Proof.
  assert (Hq : KeyboardMonitor.is_target_keyboard demo_monitor demo_keyboard = true)
    by (vm_compute; reflexivity).
  assert (Hacc : ~ (1000 - KeyboardMonitor.last_event_time demo_monitor < 1 # 2)%Q)
    by (intros H; vm_compute in H; discriminate H).
  split; [reflexivity|]. split; [exact Hq|].
  split; [left; reflexivity|]. split; [right; reflexivity|]. split; [exact Hacc|].
  exact (debounce_two_events demo_monitor world0 1000%Q (1 # 10)%Q "add" "remove"
           demo_keyboard demo_keyboard eq_refl Hq Hq
           (or_introl eq_refl) (or_intror eq_refl) Hacc).
Defined.

(** C5 at the first attach of the demo keyboard. *)
Lemma presence_tracker_idempotent_witness :
  KeyboardMonitor.loop demo_running_monitor = true /\
  KeyboardMonitor.is_target_keyboard demo_running_monitor demo_keyboard = true /\
  ~ (1000%Q - KeyboardMonitor.last_event_time demo_running_monitor
       < KeyboardMonitor.debounce_delay demo_running_monitor)%Q /\
  (
    exists km' w',
      KeyboardMonitor.handle_device_event 1000%Q (direction true) demo_keyboard demo_running_monitor world0 = (Ret tt, km', w') /\
      KeyboardMonitor.keyboard_connected km' = Some true /\
      (KeyboardMonitor.keyboard_connected demo_running_monitor = Some true -> scheduled w' = scheduled world0) /\
      (KeyboardMonitor.keyboard_connected demo_running_monitor <> Some true -> scheduled w' = true :: scheduled world0) /\
      forall evs,
        Forall (fun ev => snd (fst ev) = direction true) evs ->
        exists km'' w'',
          handle_device_events evs km' w' = (Ret tt, km'', w'') /\
          scheduled w'' = scheduled w' /\
          KeyboardMonitor.keyboard_connected km'' = Some true).
Proof.
  assert (Hq : KeyboardMonitor.is_target_keyboard demo_running_monitor demo_keyboard = true)
    by (vm_compute; reflexivity).
  assert (Hacc : ~ (1000%Q - KeyboardMonitor.last_event_time demo_running_monitor
                      < KeyboardMonitor.debounce_delay demo_running_monitor)%Q)
    by (intros H; vm_compute in H; discriminate H).
  split; [reflexivity|]. split; [exact Hq|]. split; [exact Hacc|].
  exact (presence_tracker_idempotent demo_running_monitor world0 1000%Q true
           demo_keyboard eq_refl Hq Hacc).
Defined.


(** ** The stored client and the cleanup guard *)

(** C10.  When [TVSwitcher.connect] returns [False] the [client] field is
    [None], and after [TVSwitcher.disconnect] it is [None] however the
    call ended, also when the underlying disconnect raised. *)
Theorem client_never_dangling env (sw : TVSwitcher.t) (w : World) :
  (forall sw' w',
     TVSwitcher.connect env sw w = (Ret false, sw', w') ->
     TVSwitcher.client sw' = None) /\
  (forall r sw' w',
     TVSwitcher.disconnect env sw w = (r, sw', w') ->
     TVSwitcher.client sw' = None).
Proof.
  destruct sw as [? ? ? ? [?|] [?|] ?], w as [? ? ?]; unfold_py;
    env_cases_any env; split; intros;
    match goal with H : (_, _, _) = (_, _, _) |- _ => inversion H end;
    reflexivity.
Qed.

(** C10 at a connect that fails and at a disconnect that raises. *)
Lemma client_never_dangling_witness :
  TVSwitcher.client
    (snd (fst (TVSwitcher.connect env_connect_fails demo_switcher world0))) = None /\
  TVSwitcher.client
    (snd (fst (TVSwitcher.disconnect env_release_fails demo_connected_switcher world0)))
    = None.
Proof.
  split.
  - apply (proj1 (client_never_dangling env_connect_fails demo_switcher world0)
             _ (snd (TVSwitcher.connect env_connect_fails demo_switcher world0))).
    reflexivity.
  - apply (proj2 (client_never_dangling env_release_fails demo_connected_switcher world0)
             (fst (fst (TVSwitcher.disconnect env_release_fails demo_connected_switcher world0)))
             _ (snd (TVSwitcher.disconnect env_release_fails demo_connected_switcher world0))).
    reflexivity.
Defined.

Lemma cleanup_done_noop env sw w :
  TVSwitcher._cleanup_done sw = true -> TVSwitcher.cleanup env sw w = (Ret tt, sw, w).
Proof.
  intros H. unfold TVSwitcher.cleanup, bind, get, ret. rewrite H. reflexivity.
Qed.

Lemma cleanup_n_done env n sw w :
  TVSwitcher._cleanup_done sw = true -> cleanup_n env n sw w = (sw, w).
Proof.
  intros H. induction n as [|n IH]; simpl; [reflexivity|].
  rewrite cleanup_done_noop by exact H. exact IH.
Qed.

(** C8.  From a switcher whose guard is not yet set, [n >= 1] calls of
    [cleanup] leave exactly what the first one leaves; the first call is
    [TVSwitcher.disconnect] with the guard set; together the [n] calls
    make at most one underlying disconnect call: one when a client is
    held, whether it succeeds or raises, and none otherwise. *)
Theorem cleanup_disconnects_once env (sw : TVSwitcher.t) (w : World) (n : nat) :
  TVSwitcher._cleanup_done sw = false ->
  (1 <= n)%nat ->
  exists r sw1 w1 new,
    TVSwitcher.cleanup env sw w = (r, sw1, w1) /\
    TVSwitcher.disconnect env (TVSwitcher.set_cleanup_done true sw) w = (r, sw1, w1) /\
    cleanup_n env n sw w = (sw1, w1) /\
    events w1 = new ++ events w /\
    (disconnect_calls new <= 1)%nat /\
    (forall h, TVSwitcher.client sw = Some h ->
       disconnect_calls new = 1%nat /\
       In (ECall (client_disconnect h) (env (calls_made w) (client_disconnect h))) new) /\
    (TVSwitcher.client sw = None -> new = []).
Proof.
  intros Hfresh Hn. destruct n as [|n]; [lia|]. simpl.
  destruct (TVSwitcher.cleanup env sw w) as [[r sw1] w1] eqn:Hrun.
  assert (Hdone : TVSwitcher._cleanup_done sw1 = true /\
          TVSwitcher.disconnect env (TVSwitcher.set_cleanup_done true sw) w = (r, sw1, w1)).
  { revert Hrun. unfold TVSwitcher.cleanup, bind, get, modify. rewrite Hfresh.
    intros Hrun. split; [|exact Hrun].
    revert Hrun. destruct sw as [? ? ? ? [?|] ? ?], w as [? ? ?]; unfold_py;
      env_cases_any env; intros Hrun; inversion Hrun; reflexivity. }
  destruct Hdone as [Hdone Hdis].
  exists r, sw1, w1.
  rewrite cleanup_n_done by exact Hdone.
  revert Hdis. destruct sw as [? ? ? ? [h|] ? ?], w as [? ? ?]; unfold_py;
    env_cases_any env; intros Hdis; inversion Hdis; subst; unfold_py;
    (eexists; split; [reflexivity|]; split; [reflexivity|]; split; [reflexivity|]);
    give_new_events_evar;
    (split; [cbv; lia|]; split;
     [ intros h0 Hh; inversion Hh; subst;
       try (split; [reflexivity|]; rewrite ?E; simpl; auto)
     | intros Hh; first [discriminate Hh | reflexivity] ]).
Qed.

(** C8 at three cleanups of a switcher whose disconnect raises. *)
Lemma cleanup_disconnects_once_witness :
  TVSwitcher._cleanup_done demo_connected_switcher = false /\
  (1 <= 3)%nat /\
  (exists r sw1 w1 new,
     TVSwitcher.cleanup env_release_fails demo_connected_switcher world0 = (r, sw1, w1) /\
     TVSwitcher.disconnect env_release_fails
       (TVSwitcher.set_cleanup_done true demo_connected_switcher) world0 = (r, sw1, w1) /\
     cleanup_n env_release_fails 3 demo_connected_switcher world0 = (sw1, w1) /\
     events w1 = new ++ events world0 /\
     (disconnect_calls new <= 1)%nat /\
     (forall h, TVSwitcher.client demo_connected_switcher = Some h ->
        disconnect_calls new = 1%nat /\
        In (ECall (client_disconnect h)
              (env_release_fails (calls_made world0) (client_disconnect h))) new) /\
     (TVSwitcher.client demo_connected_switcher = None -> new = [])).
Proof.
  split; [reflexivity|]. split; [lia|].
  apply (cleanup_disconnects_once env_release_fails demo_connected_switcher world0 3);
    [reflexivity | lia].
Defined.


(** ** Startup *)

Lemma appends_ret {S A} (a : A) : appends (@ret S A a).
Proof. intros s w. exists []. reflexivity. Qed.

Lemma appends_get {S} : appends (@get S).
Proof. intros s w. exists []. reflexivity. Qed.

Lemma appends_modify {S} (f : S -> S) : appends (modify f).
Proof. intros s w. exists []. reflexivity. Qed.

Lemma appends_log {S} lvl msg : appends (@log S lvl msg).
Proof. intros s w. exists [ELog lvl msg]. reflexivity. Qed.

Lemma appends_schedule {S} b : appends (@run_coroutine_threadsafe S b).
Proof. intros s w. exists []. reflexivity. Qed.

Lemma appends_call {S} env c : appends (@call env S c).
Proof. intros s w. exists [ECall c (env (calls_made w) c)]. reflexivity. Qed.

Lemma appends_bind {S A B} (m : M S A) (k : A -> M S B) :
  appends m -> (forall a, appends (k a)) -> appends (bind m k).
Proof.
  intros Hm Hk s w. unfold bind. specialize (Hm s w).
  destruct (m s w) as [[[a|e] s1] w1]; simpl in Hm; destruct Hm as [new1 H1].
  - destruct (Hk a s1 w1) as [new2 H2]. exists (new2 ++ new1).
    rewrite H2, H1. apply app_assoc.
  - exists new1. exact H1.
Qed.

Lemma appends_try_except_Exception {S A} (body : M S A) (handler : exn -> M S A) :
  appends body -> (forall e, appends (handler e)) ->
  appends (try_except_Exception body handler).
Proof.
  intros Hb Hh s w. unfold try_except_Exception. specialize (Hb s w).
  destruct (body s w) as [[[a|e] s1] w1]; simpl in Hb; destruct Hb as [new1 H1].
  - exists new1. exact H1.
  - destruct (is_Exception e).
    + destruct (Hh e s1 w1) as [new2 H2]. exists (new2 ++ new1).
      rewrite H2, H1. apply app_assoc.
    + exists new1. exact H1.
Qed.

Ltac solve_appends :=
  repeat first
    [ assumption
    | match goal with H : forall _ _ _, appends _ |- _ => apply H end
    | apply appends_ret | apply appends_get | apply appends_modify
    | apply appends_log | apply appends_schedule | apply appends_call
    | apply appends_bind; [|intros ?]
    | apply appends_try_except_Exception; [|intros ?]
    | match goal with
      | |- appends (if ?c then _ else _) => destruct c
      | |- appends (match ?x with _ => _ end) => destruct x
      end ].

Lemma handle_device_event_appends now action (d : gmap string string) :
  appends (KeyboardMonitor.handle_device_event now action d).
Proof. unfold KeyboardMonitor.handle_device_event. solve_appends. Qed.

Lemma monitor_loop_appends env polls : appends (KeyboardMonitor.monitor_loop env polls).
Proof.
  pose proof handle_device_event_appends as Hh.
  induction polls as [|p rest IH]; cbn [KeyboardMonitor.monitor_loop];
    unfold KeyboardMonitor.stop; solve_appends.
Qed.

(** One run of the switch executor: its events are its marker followed
    by events that are neither markers nor monitor calls; it schedules
    nothing; with well-behaved errors it returns. *)
Lemma switch_input_events env connected sw w :
  exists r sw' w',
    TVSwitcher.switch_input env connected sw w = (r, sw', w') /\
    exists new,
      events w' = new ++ events w /\
      switch_actions new = [connected] /\
      no_monitor_call new = true /\
      scheduled w' = scheduled w /\
      (good_env env -> exists b, r = Ret b).
Proof.
  destruct sw as [? ? ? [] ? [?|] ?], w as [? ? ?], connected; unfold_py;
    env_cases_any env;
    (do 3 eexists; split; [reflexivity|]; unfold_py; give_new_events);
    (split; [reflexivity|]); (split; [reflexivity|]); (split; [reflexivity|]);
    intros Hgood;
    try (eexists; reflexivity);
    match goal with
    | E : env _ _ = Some ?e, H : is_Exception ?e = false |- _ =>
        rewrite (Hgood _ _ _ E) in H; discriminate H
    end.
Qed.


Section Startup.
Variable env : Env.
Hypothesis Hgood : good_env env.

Ltac run_switch_input :=
  match goal with
  | |- context [TVSwitcher.switch_input env ?b ?s ?w0] =>
      let r := fresh "r" in
      let sw' := fresh "sw'" in
      let w' := fresh "w'" in
      let new := fresh "new" in
      let Hrun := fresh "Hrun" in
      let Hev := fresh "Hev" in
      let Hact := fresh "Hact" in
      let Hmon := fresh "Hmon" in
      let Hsch := fresh "Hsch" in
      let Hret := fresh "Hret" in
      let b' := fresh "b" in
      destruct (switch_input_events env b s w0)
        as (r & sw' & w' & Hrun & new & Hev & Hact & Hmon & Hsch & Hret);
      destruct (Hret Hgood) as [b' ->];
      rewrite Hrun
  end.

Lemma check_initial_state_scan_spec (devices : list (gmap string string)) :
  forall km w,
  exists km' w',
    KeyboardMonitor.check_initial_state_scan env devices km w =
      (Ret (existsb (KeyboardMonitor.is_target_keyboard km) devices), km', w') /\
    exists new,
      events w' = new ++ events w /\
      no_monitor_call new = true /\
      scheduled w' = scheduled w /\
      KeyboardMonitor.keyboard_name km' = KeyboardMonitor.keyboard_name km /\
      if existsb (KeyboardMonitor.is_target_keyboard km) devices
      then switch_actions new = [true] /\
           KeyboardMonitor.keyboard_connected km' = Some true
      else new = [] /\ km' = km.
Proof.
  induction devices as [|d rest IH]; intros km w.
  - exists km, w. split; [reflexivity|]. exists []. simpl. auto 10.
  - simpl. unfold bind at 1. unfold get at 1. rewrite initial_scan_test_eq.
    destruct (KeyboardMonitor.is_target_keyboard km d) eqn:Hq; simpl; [|apply IH].
    cbv [bind log modify ret KeyboardMonitor.on_tv_switcher].
    run_switch_input.
    destruct km as [v m nm sw kc run lp last dl]; simpl in *.
    do 2 eexists. split; [reflexivity|]. simpl.
    exists (new ++ [ELog INFO ("Keyboard '" ++ nm ++ "' is currently connected")]).
    rewrite <- app_assoc. split; [exact Hev|].
    rewrite no_monitor_call_app, switch_actions_app, Hmon, Hact. simpl. auto 10.
Qed.

Lemma check_initial_state_spec (devices : list (gmap string string)) km w :
  exists km' w',
    KeyboardMonitor.check_initial_state env devices km w = (Ret tt, km', w') /\
    exists new,
      events w' = new ++ events w /\
      no_monitor_call new = true /\
      scheduled w' = scheduled w /\
      switch_actions new = [existsb (KeyboardMonitor.is_target_keyboard km) devices] /\
      KeyboardMonitor.keyboard_connected km' =
        Some (existsb (KeyboardMonitor.is_target_keyboard km) devices).
Proof.
  unfold KeyboardMonitor.check_initial_state.
  unfold bind at 1. unfold log at 1.
  unfold bind at 1.
  match goal with
  | |- context [KeyboardMonitor.check_initial_state_scan env devices km ?w0] =>
      destruct (check_initial_state_scan_spec devices km w0)
        as (km1 & w1 & Hrun1 & new1 & Hev1 & Hmon1 & Hsch1 & Hnm1 & Hcase);
      rewrite Hrun1
  end.
  simpl in Hev1, Hsch1.
  destruct (existsb (KeyboardMonitor.is_target_keyboard km) devices) eqn:Hex.
  - destruct Hcase as (Hact & Hkc).
    exists km1, w1. split; [reflexivity|].
    exists (new1 ++ [ELog INFO "Checking initial keyboard state..."]).
    rewrite <- app_assoc, no_monitor_call_app, switch_actions_app, Hmon1, Hact.
    simpl. auto 10.
  - destruct Hcase as (-> & ->). simpl in Hev1.
    cbv [bind get log modify ret KeyboardMonitor.on_tv_switcher].
    run_switch_input.
    destruct km as [v m nm sw kc run lp last dl]; simpl in *.
    do 2 eexists. split; [reflexivity|]. simpl.
    exists (new ++ [ELog INFO ("Keyboard '" ++ nm ++ "' is not connected");
                    ELog INFO "Checking initial keyboard state..."]).
    split; [rewrite Hev, Hev1, <- app_assoc; reflexivity|].
    rewrite no_monitor_call_app, switch_actions_app, Hmon, Hact.
    simpl. split; [reflexivity|]. split; [congruence|]. auto.
Qed.

(** C6.  At startup, with errors that are [Exception]s: the presence
    the scan resolves is present exactly when the enumeration holds a
    device of the target identity; [check_initial_state] returns with the
    tracked state set to it and exactly one invocation of the switch
    executor, for that target; in [start_monitoring] that one invocation
    and everything before it come before the call that starts the udev
    monitor, and no monitor call (start or poll) is among them. *)
Theorem startup_switches_once (devices : list (gmap string string)) (polls : list Poll)
    km w vendor model :
  KeyboardMonitor.vendor_id km = lower vendor ->
  KeyboardMonitor.model_id km = lower model ->
  let present := existsb (KeyboardMonitor.is_target_keyboard km) devices in
  (present = true <-> exists d, In d devices /\ matches_identity vendor model d) /\
  (exists km1 w1 startup,
     KeyboardMonitor.check_initial_state env devices km w = (Ret tt, km1, w1) /\
     KeyboardMonitor.keyboard_connected km1 = Some present /\
     events w1 = startup ++ events w /\
     switch_actions startup = [present]) /\
  (exists r km' w' later mr startup,
     KeyboardMonitor.start_monitoring env devices polls km w = (r, km', w') /\
     events w' = later ++ ECall Monitor_start mr :: startup ++ events w /\
     switch_actions startup = [present] /\
     no_monitor_call startup = true).
Proof.
  intros Hv Hm present. split; [|split].
  - unfold present. rewrite existsb_exists.
    split; intros [d [Hin Hd]]; exists d; (split; [exact Hin|]);
      apply (is_target_keyboard_iff km vendor model d Hv Hm); exact Hd.
  - destruct (check_initial_state_spec devices km w)
      as (km1 & w1 & Hrun & new & Hev & _ & _ & Hact & Hkc).
    exists km1, w1, new. auto.
  - unfold KeyboardMonitor.start_monitoring.
    cbv [bind get log modify] .
    match goal with
    | |- context [KeyboardMonitor.check_initial_state env devices ?k0 ?w0] =>
        destruct (check_initial_state_spec devices k0 w0)
          as (km1 & w1 & Hrun & new & Hev & Hmon & _ & Hact & _);
        rewrite Hrun
    end.
    simpl in Hev.
    unfold call. destruct (env (calls_made w1) Monitor_start) as [e|] eqn:E; cbv beta iota zeta.
    + do 3 eexists. exists [], (Some e), (new ++ [ELog INFO ("Vendor ID: " ++ KeyboardMonitor.vendor_id km ++ ", Product ID: " ++ KeyboardMonitor.model_id km); ELog INFO ("Watching for: " ++ KeyboardMonitor.keyboard_name km); ELog INFO "Starting USB keyboard monitoring..."]).
      split; [reflexivity|]. simpl.
      rewrite Hev, <- app_assoc, no_monitor_call_app, switch_actions_app, Hmon, Hact.
      simpl. auto.
    + match goal with
      | |- context [KeyboardMonitor.monitor_loop env polls ?k0 ?w0] =>
          destruct (monitor_loop_appends env polls k0 w0) as [newl Hl];
          destruct (KeyboardMonitor.monitor_loop env polls k0 w0) as [[r1 s1] w2]
      end.
      simpl in Hl.
      set (startup := new ++ [ELog INFO ("Vendor ID: " ++ KeyboardMonitor.vendor_id km ++ ", Product ID: " ++ KeyboardMonitor.model_id km); ELog INFO ("Watching for: " ++ KeyboardMonitor.keyboard_name km); ELog INFO "Starting USB keyboard monitoring..."]).
      assert (Hstart : switch_actions startup = [present] /\ no_monitor_call startup = true).
      { unfold startup. rewrite no_monitor_call_app, switch_actions_app, Hmon, Hact.
        simpl. auto. }
      assert (Hev' : events w1 = startup ++ events w).
      { unfold startup. rewrite Hev, <- app_assoc. reflexivity. }
      destruct r1 as [[]|e1]; simpl.
      * do 3 eexists. exists (ELog INFO "Monitor loop exited" :: newl ++ [ELog INFO "Press Ctrl+C to stop"; ELog INFO "Monitor started. Waiting for keyboard events..."]), None, startup.
        split; [reflexivity|]. simpl. rewrite Hl, Hev', <- app_assoc. simpl. auto.
      * do 3 eexists. exists (newl ++ [ELog INFO "Press Ctrl+C to stop"; ELog INFO "Monitor started. Waiting for keyboard events..."]), None, startup.
        split; [reflexivity|]. simpl. rewrite Hl, Hev', <- app_assoc. simpl. auto.
      * do 3 eexists. exists (newl ++ [ELog INFO "Press Ctrl+C to stop"; ELog INFO "Monitor started. Waiting for keyboard events..."]), None, startup.
        split; [reflexivity|]. simpl. rewrite Hl, Hev', <- app_assoc. simpl. auto.
Qed.
End Startup.

(** C6 at an enumeration that holds a mouse and the demo keyboard. *)
Lemma startup_switches_once_witness :
  good_env env_ok /\
  KeyboardMonitor.vendor_id demo_monitor = lower "04d9" /\
  KeyboardMonitor.model_id demo_monitor = lower "A0F8" /\
  (
    let present := existsb (KeyboardMonitor.is_target_keyboard demo_monitor) demo_devices in
    (present = true <-> exists d, In d demo_devices /\ matches_identity "04d9" "A0F8" d) /\
    (exists km1 w1 startup,
       KeyboardMonitor.check_initial_state env_ok demo_devices demo_monitor world0 = (Ret tt, km1, w1) /\
       KeyboardMonitor.keyboard_connected km1 = Some present /\
       events w1 = startup ++ events world0 /\
       switch_actions startup = [present]) /\
    (exists r km' w' later mr startup,
       KeyboardMonitor.start_monitoring env_ok demo_devices demo_polls demo_monitor world0 = (r, km', w') /\
       events w' = later ++ ECall Monitor_start mr :: startup ++ events world0 /\
       switch_actions startup = [present] /\
       no_monitor_call startup = true)).
Proof.
  assert (Hgood : good_env env_ok) by (intros n c e H; discriminate H).
  split; [exact Hgood|]. split; [reflexivity|]. split; [reflexivity|].
  exact (startup_switches_once env_ok Hgood demo_devices demo_polls demo_monitor
           world0 "04d9" "A0F8" eq_refl eq_refl).
Defined.

(** ** The scenario of the specification

    Target 04d9:a0f8, absent at startup; attach at 1000 s, attach again
    0.1 s later, detach 0.9 s after the first: the first attach switches to
    the connected input, the second is dropped, the detach switches back;
    two switch actions in all. *)
Example scenario_two_switch_actions :
  exists km' w',
    handle_device_events
      [(1000, "add", demo_keyboard);
       (1000 + (1 # 10), "add", demo_keyboard);
       (1000 + (9 # 10), "remove", demo_keyboard)]%Q
      (KeyboardMonitor.set_keyboard_connected (Some false) demo_running_monitor)
      world0 = (Ret tt, km', w') /\
    scheduled w' = [false; true] /\
    KeyboardMonitor.keyboard_connected km' = Some false.
Proof.
  compute_run. split; reflexivity.
Qed.

(** * Further properties *)

Import Setup.

(** ** The switch executor, under any environment *)

Lemma count_events_app p a b : count_events p (a ++ b) = (count_events p a + count_events p b)%nat.
Proof. unfold count_events. rewrite filter_app, length_app. reflexivity. Qed.

(** What one run of the switch executor leaves, under any environment. *)
Lemma switch_input_frame env connected sw w :
  exists r sw' w',
    TVSwitcher.switch_input env connected sw w = (r, sw', w') /\
    exists new,
      events w' = new ++ events w /\
      sw' = TVSwitcher.set_storage
              (Some (default TVSwitcher.storage_file (TVSwitcher.storage sw))) sw /\
      scheduled w' = scheduled w /\
      count_events is_async_init_call new =
        match TVSwitcher.storage sw with Some _ => 0%nat | None => 1%nat end.
Proof.
  destruct sw as [? ? ? [] ? [?|] ?], w as [? ? ?], connected; unfold_py;
    env_cases_any env; finish_run; repeat split; reflexivity.
Qed.

Lemma switch_inputs_frame env (targets : list bool) (sw : TVSwitcher.t) (w : World) :
  exists new,
    events (snd (switch_inputs env targets sw w)) = new ++ events w /\
    (count_events is_async_init_call new <= 1)%nat /\
    (TVSwitcher.storage sw <> None -> count_events is_async_init_call new = 0%nat) /\
    (targets <> [] -> TVSwitcher.storage (fst (switch_inputs env targets sw w)) <> None) /\
    TVSwitcher.client (fst (switch_inputs env targets sw w)) = TVSwitcher.client sw /\
    TVSwitcher._cleanup_done (fst (switch_inputs env targets sw w))
      = TVSwitcher._cleanup_done sw.
Proof.
  revert sw w. induction targets as [|b rest IH]; intros sw w.
  - exists []. simpl. repeat split; auto; congruence.
  - simpl.
    destruct (switch_input_frame env b sw w)
      as (r & sw1 & w1 & Hrun & new1 & Hev1 & Hsw & _ & Hcnt).
    rewrite Hrun.
    destruct (IH sw1 w1) as (new2 & Hev2 & Hle & Hzero & Hset & Hcl & Hcd).
    assert (Hst1 : TVSwitcher.storage sw1 <> None) by (rewrite Hsw; discriminate).
    specialize (Hzero Hst1).
    exists (new2 ++ new1). rewrite Hev2, Hev1, app_assoc, count_events_app, Hzero, Hcnt.
    split; [reflexivity|]. split; [destruct (TVSwitcher.storage sw); simpl; lia|].
    split; [intros Hs; destruct (TVSwitcher.storage sw); [reflexivity|congruence]|].
    split.
    + intros _. destruct rest; [exact Hst1 | apply Hset; discriminate].
    + rewrite Hcl, Hcd, Hsw. destruct sw; auto.
Qed.

(** X1.  Over any sequence of [switch_input] invocations and any behaviour
    of the outside, [storage.async_init()] is awaited at most once, and not
    at all when the storage field is already set; the field is set before
    the first await, so an [async_init] that raised is not tried again. *)
Theorem storage_initialized_once env (targets : list bool) (sw : TVSwitcher.t)
    (w : World) :
  exists new,
    events (snd (switch_inputs env targets sw w)) = new ++ events w /\
    (count_events is_async_init_call new <= 1)%nat /\
    (TVSwitcher.storage sw <> None -> count_events is_async_init_call new = 0%nat) /\
    (targets <> [] -> TVSwitcher.storage (fst (switch_inputs env targets sw w)) <> None).
Proof.
  destruct (switch_inputs_frame env targets sw w) as (new & Hev & Hle & Hzero & Hset & _).
  exists new. auto.
Qed.

(** X2.  [switch_input] never stores its client: from a freshly built
    switcher, after any sequence of invocations the [client] field is still
    [None], and [cleanup] then returns without any external call or log
    record, only setting its guard. *)
Theorem switch_input_keeps_no_handle env tv_ip hdmi_c hdmi_d tos (targets : list bool)
    (w : World) :
  let sw := TVSwitcher.__init__ tv_ip hdmi_c hdmi_d tos in
  let sw' := fst (switch_inputs env targets sw w) in
  let w' := snd (switch_inputs env targets sw w) in
  TVSwitcher.client sw' = None /\
  TVSwitcher.cleanup env sw' w' = (Ret tt, TVSwitcher.set_cleanup_done true sw', w').
Proof.
  intros sw sw' w'.
  destruct (switch_inputs_frame env targets sw w) as (_ & _ & _ & _ & _ & Hcl & Hcd).
  fold sw' in Hcl, Hcd. simpl in Hcl, Hcd. split; [exact Hcl|].
  unfold TVSwitcher.cleanup, TVSwitcher.disconnect, bind, get, modify, ret.
  rewrite Hcd. simpl. rewrite Hcl. reflexivity.
Qed.

(** X3.  The calls one invocation of [switch_input] makes, under any
    behaviour of the outside: the input-switch call carries the identifier
    configured for the target state and is made only on a handle whose
    connect completed; connect is attempted only after [create] returned;
    a disconnect is made only on a handle that connect was attempted on;
    there is at most one input-switch call and at most two disconnects;
    the udev monitor is never called. *)
Theorem switch_input_call_protocol env connected (sw : TVSwitcher.t) (w : World) :
  exists r sw' w',
    TVSwitcher.switch_input env connected sw w = (r, sw', w') /\
    exists new,
      events w' = new ++ events w /\
      (forall h app r0, In (ECall (client_launch_app h app) r0) new ->
         app = (if connected then TVSwitcher.hdmi_connected sw
                else TVSwitcher.hdmi_disconnected sw) /\
         In (ECall (client_connect h) None) new) /\
      (forall h r0, In (ECall (client_connect h) r0) new ->
         In (ECall (WebOsClient_create (TVSwitcher.tv_ip sw)) None) new) /\
      (forall h r0, In (ECall (client_disconnect h) r0) new ->
         exists r1, In (ECall (client_connect h) r1) new) /\
      (count_events is_launch_call new <= 1)%nat /\
      (disconnect_calls new <= 2)%nat /\
      no_monitor_call new = true.
Proof.
  destruct sw as [? ? ? [] ? [?|] ?], w as [? ? ?], connected; unfold_py;
    env_cases_any env; finish_run.
  all: split; [|split; [|split; [|split; [|split]]]].
  all: match goal with
       | |- forall h app r0, In _ _ -> _ /\ _ =>
           intros ? ? ? Hin; in_cases; (split; [reflexivity | simpl; auto 20])
       | |- forall h r0, In _ _ -> In _ _ =>
           intros ? ? Hin; in_cases; simpl; auto 20
       | |- forall h r0, In _ _ -> exists _, _ =>
           intros ? ? Hin; in_cases; eexists; simpl; eauto 20
       | |- (_ <= _)%nat => cbv; lia
       | |- _ = true => reflexivity
       end.
Qed.

(** X4.  [switch_input] raises only what is not an [Exception] (a task
    cancellation, say): the raising call is then the newest event, nothing
    is logged after it, and no disconnect was made before it, so the
    connection is left open unless the raising call is the release
    itself. *)
Theorem switch_input_raise_leaks env connected (sw : TVSwitcher.t) (w : World) e sw' w' :
  TVSwitcher.switch_input env connected sw w = (Raise e, sw', w') ->
  is_Exception e = false /\
  exists c older,
    events w' = ECall c (Some e) :: older ++ events w /\
    disconnect_calls older = 0%nat.
Proof.
  destruct sw as [? ? ? [] ? [?|] ?], w as [? ? ?], connected; unfold_py;
    env_cases_any env; intros Hrun; inversion Hrun; subst;
    (split; [assumption|]); eexists; unfold_py;
    match goal with
    | |- exists older, ?x :: ?l = _ :: older ++ ?old /\ _ =>
        let p := events_before l old in exists p; split; [reflexivity|reflexivity]
    end.
Qed.

(** X4 at a cancellation that arrives during the input-switch call. *)
Lemma switch_input_raise_leaks_witness :
  demo_cancelled_run
    = (Raise cancelled_error, snd (fst demo_cancelled_run), snd demo_cancelled_run) /\
  (is_Exception cancelled_error = false /\
   exists c older,
     events (snd demo_cancelled_run) = ECall c (Some cancelled_error) :: older ++ events world0 /\
     disconnect_calls older = 0%nat).
Proof.
  assert (Hrun : demo_cancelled_run
            = (Raise cancelled_error, snd (fst demo_cancelled_run), snd demo_cancelled_run))
    by (vm_compute; reflexivity).
  split; [exact Hrun|].
  exact (switch_input_raise_leaks env_cancelled_at_launch true demo_switcher world0
           cancelled_error _ _ Hrun).
Defined.

(** ** [TVSwitcher.connect] *)

(** X5.  With errors that are [Exception]s, [connect] returns a boolean
    that is [True] exactly when the [client] field is set afterwards; on a
    switcher that already holds a client it returns [True] and does
    nothing; a first successful connect stores the handle whose connect
    call completed; in no case does [connect] disconnect anything, also
    not the client whose connect call failed. *)
Theorem connect_outcome env (sw : TVSwitcher.t) (w : World) :
  good_env env ->
  exists b sw' w',
    TVSwitcher.connect env sw w = (Ret b, sw', w') /\
    exists new,
      events w' = new ++ events w /\
      (b = true <-> TVSwitcher.client sw' <> None) /\
      (TVSwitcher.client sw <> None -> b = true /\ sw' = sw /\ new = []) /\
      (TVSwitcher.client sw = None -> b = true ->
       exists h, TVSwitcher.client sw' = Some h /\
                 In (ECall (client_connect h) None) new) /\
      disconnect_calls new = 0%nat.
Proof.
  intros Hgood.
  destruct sw as [? ? ? ? [?|] [?|] ?], w as [? ? ?]; unfold_py;
    env_cases env Hgood; finish_run.
  all: split; [|split; [|split]].
  all: match goal with
       | |- _ <-> _ => split; [intros Hb; try discriminate Hb; discriminate
                               | intros Hc; first [reflexivity | exfalso; apply Hc; reflexivity]]
       | |- _ <> None -> _ => intros Hc; first [ exfalso; apply Hc; reflexivity
                                               | repeat split; reflexivity ]
       | |- _ = None -> _ =>
           intros Hc Hb;
           first [ discriminate Hc | discriminate Hb
                 | eexists; split; [reflexivity | simpl; auto 10] ]
       | |- _ = 0%nat => reflexivity
       end.
Qed.

(** X5 at a connect call that fails. *)
Lemma connect_outcome_witness :
  good_env env_connect_fails /\
  (exists b sw' w',
     TVSwitcher.connect env_connect_fails demo_switcher world0 = (Ret b, sw', w') /\
     exists new,
       events w' = new ++ events world0 /\
       (b = true <-> TVSwitcher.client sw' <> None) /\
       (TVSwitcher.client demo_switcher <> None ->
        b = true /\ sw' = demo_switcher /\ new = []) /\
       (TVSwitcher.client demo_switcher = None -> b = true ->
        exists h, TVSwitcher.client sw' = Some h /\
                  In (ECall (client_connect h) None) new) /\
       disconnect_calls new = 0%nat).
Proof.
  assert (Hgood : good_env env_connect_fails).
  { intros n c e. destruct c; simpl; intros H; inversion H; reflexivity. }
  split; [exact Hgood|].
  exact (connect_outcome env_connect_fails demo_switcher world0 Hgood).
Defined.

Lemma connect_true_fresh env (sw sw1 : TVSwitcher.t) (w w1 : World) :
  TVSwitcher.client sw = None ->
  TVSwitcher.connect env sw w = (Ret true, sw1, w1) ->
  exists h,
    TVSwitcher.client sw1 = Some h /\
    TVSwitcher._cleanup_done sw1 = TVSwitcher._cleanup_done sw /\
    exists new, events w1 = new ++ events w /\ In (ECall (client_connect h) None) new.
Proof.
  destruct sw as [? ? ? ? [?|] [?|] ?], w as [? ? ?]; simpl;
    intros Hc; try discriminate Hc; unfold_py;
    env_cases_any env; intros Hrun; inversion Hrun; subst;
    eexists; (split; [reflexivity|]); (split; [reflexivity|]);
    unfold_py; give_new_events; simpl; auto.
Qed.

Lemma cleanup_with_client env (sw : TVSwitcher.t) (w : World) h :
  TVSwitcher.client sw = Some h ->
  TVSwitcher._cleanup_done sw = false ->
  exists r sw2 w2 new2,
    TVSwitcher.cleanup env sw w = (r, sw2, w2) /\
    events w2 = new2 ++ events w /\
    filter is_disconnect_call new2 =
      [ECall (client_disconnect h) (env (calls_made w) (client_disconnect h))] /\
    TVSwitcher.client sw2 = None /\
    TVSwitcher._cleanup_done sw2 = true.
Proof.
  destruct sw as [? ? ? ? [?|] ? []], w as [evs n sch]; simpl;
    intros Hc Hd; try discriminate Hc; try discriminate Hd;
    inversion Hc; subst; unfold_py;
    destruct (env n (client_disconnect h)) as [e|] eqn:E;
    [destruct (is_Exception e) eqn:Hx|]; unfold_py; rewrite ?Hx; unfold_py;
    do 3 eexists; eexists; (split; [reflexivity|]); unfold_py;
    give_new_events_evar; auto.
Qed.

(** X6.  After a first [connect] that returned [True], [cleanup] makes
    exactly one underlying disconnect, on the very handle [connect] had
    connected, and leaves the [client] field [None] and the guard set,
    whether that disconnect returns or raises. *)
Theorem connect_then_cleanup env (sw sw1 : TVSwitcher.t) (w w1 : World) :
  TVSwitcher.client sw = None ->
  TVSwitcher._cleanup_done sw = false ->
  TVSwitcher.connect env sw w = (Ret true, sw1, w1) ->
  exists h r sw2 w2 new1 new2,
    TVSwitcher.client sw1 = Some h /\
    events w1 = new1 ++ events w /\
    In (ECall (client_connect h) None) new1 /\
    TVSwitcher.cleanup env sw1 w1 = (r, sw2, w2) /\
    events w2 = new2 ++ events w1 /\
    filter is_disconnect_call new2 =
      [ECall (client_disconnect h) (env (calls_made w1) (client_disconnect h))] /\
    TVSwitcher.client sw2 = None /\
    TVSwitcher._cleanup_done sw2 = true.
Proof.
  intros Hc Hd Hrun.
  destruct (connect_true_fresh env sw sw1 w w1 Hc Hrun)
    as (h & Hc1 & Hd1 & new1 & Hev1 & Hin).
  rewrite Hd in Hd1.
  destruct (cleanup_with_client env sw1 w1 h Hc1 Hd1)
    as (r & sw2 & w2 & new2 & Hrun2 & Hev2 & Hf & Hc2 & Hd2).
  exists h, r, sw2, w2, new1, new2. auto 10.
Qed.

(** X6 at a connect that succeeds. *)
Lemma connect_then_cleanup_witness :
  TVSwitcher.client demo_switcher = None /\
  TVSwitcher._cleanup_done demo_switcher = false /\
  TVSwitcher.connect env_ok demo_switcher world0
    = (Ret true, snd (fst demo_connect_run), snd demo_connect_run) /\
  (exists h r sw2 w2 new1 new2,
     TVSwitcher.client (snd (fst demo_connect_run)) = Some h /\
     events (snd demo_connect_run) = new1 ++ events world0 /\
     In (ECall (client_connect h) None) new1 /\
     TVSwitcher.cleanup env_ok (snd (fst demo_connect_run)) (snd demo_connect_run)
       = (r, sw2, w2) /\
     events w2 = new2 ++ events (snd demo_connect_run) /\
     filter is_disconnect_call new2 =
       [ECall (client_disconnect h)
          (env_ok (calls_made (snd demo_connect_run)) (client_disconnect h))] /\
     TVSwitcher.client sw2 = None /\
     TVSwitcher._cleanup_done sw2 = true).
Proof.
  assert (Hrun : TVSwitcher.connect env_ok demo_switcher world0
            = (Ret true, snd (fst demo_connect_run), snd demo_connect_run))
    by (vm_compute; reflexivity).
  split; [reflexivity|]. split; [reflexivity|]. split; [exact Hrun|].
  exact (connect_then_cleanup env_ok demo_switcher _ world0 _ eq_refl eq_refl Hrun).
Defined.

(** ** The event handler on any event *)

(** One call of the handler, whatever the action and the device. *)
Lemma handle_device_event_step now action (d : gmap string string) km w :
  exists km' w',
    KeyboardMonitor.handle_device_event now action d km w = (Ret tt, km', w') /\
    (exists logs, events w' = logs ++ events w /\ forallb is_log logs = true) /\
    calls_made w' = calls_made w /\
    KeyboardMonitor.vendor_id km' = KeyboardMonitor.vendor_id km /\
    KeyboardMonitor.model_id km' = KeyboardMonitor.model_id km /\
    KeyboardMonitor.keyboard_name km' = KeyboardMonitor.keyboard_name km /\
    KeyboardMonitor.tv_switcher km' = KeyboardMonitor.tv_switcher km /\
    KeyboardMonitor.running km' = KeyboardMonitor.running km /\
    KeyboardMonitor.loop km' = KeyboardMonitor.loop km /\
    KeyboardMonitor.debounce_delay km' = KeyboardMonitor.debounce_delay km /\
    ((scheduled w' = scheduled w /\
      (KeyboardMonitor.loop km = true ->
       KeyboardMonitor.keyboard_connected km' = KeyboardMonitor.keyboard_connected km)) \/
     (exists b, scheduled w' = b :: scheduled w /\
                KeyboardMonitor.keyboard_connected km' = Some b /\
                KeyboardMonitor.keyboard_connected km <> Some b /\
                action = direction b)) /\
    (KeyboardMonitor.last_event_time km' = KeyboardMonitor.last_event_time km \/
     (KeyboardMonitor.last_event_time km' = now /\
      (KeyboardMonitor.debounce_delay km <= now - KeyboardMonitor.last_event_time km)%Q)) /\
    (KeyboardMonitor.keyboard_connected km <> None ->
     KeyboardMonitor.keyboard_connected km' <> None).
Proof.
  unfold_km.
  destruct (KeyboardMonitor.is_target_keyboard km d);
    [|exists km, w; split; [reflexivity|]; split; [exists []; auto|]; auto 20].
  destruct (Qlt_bool (now - KeyboardMonitor.last_event_time km)
              (KeyboardMonitor.debounce_delay km)) eqn:Hdeb;
    [exists km, w; split; [reflexivity|]; split; [exists []; auto|]; auto 20|].
  assert (Hwin : (KeyboardMonitor.debounce_delay km
                  <= now - KeyboardMonitor.last_event_time km)%Q).
  { unfold Qlt_bool in Hdeb. apply negb_false_iff in Hdeb.
    apply Qle_bool_iff. exact Hdeb. }
  simpl. 
  destruct (String.eqb action "add") eqn:Hadd;
    [apply String.eqb_eq in Hadd
    |destruct (String.eqb action "remove") eqn:Hrem;
       [apply String.eqb_eq in Hrem|]];
    destruct km as [v m nm sw kc run lp last dl], w as [evs n sch]; simpl in *;
    try case_bool_decide; simpl; try destruct lp; simpl;
    do 2 eexists; (split; [reflexivity|]); simpl;
    (split; [eexists; give_new_events_evar; reflexivity|]);
    repeat (split; [reflexivity|]);
    (split; [first [ left; split; [reflexivity|]; intros Hl;
                     first [discriminate Hl | reflexivity | congruence]
                   | right; eexists; repeat split; try reflexivity; assumption ] |]);
    (split; [right; split; [reflexivity | exact Hwin]|]);
    intros Hk; first [discriminate | exact Hk].
Qed.

(** X7.  [handle_device_event] never raises and makes no external call:
    it only logs, schedules at most one switch, and changes no field of
    the monitor other than the tracked presence and the time stamp. *)
Theorem handler_touches_only_presence now action (d : gmap string string) km w :
  exists km' w' logs,
    KeyboardMonitor.handle_device_event now action d km w = (Ret tt, km', w') /\
    events w' = logs ++ events w /\ forallb is_log logs = true /\
    calls_made w' = calls_made w /\
    KeyboardMonitor.set_last_event_time (KeyboardMonitor.last_event_time km)
      (KeyboardMonitor.set_keyboard_connected (KeyboardMonitor.keyboard_connected km) km')
      = km /\
    (length (scheduled w') <= S (length (scheduled w)))%nat.
Proof.
  destruct (handle_device_event_step now action d km w)
    as (km' & w' & Hrun & (logs & Hev & Hlogs) & Hc & Hv & Hm & Hn & Hsw & Hr & Hl & Hd
        & Hsch & _).
  exists km', w', logs. repeat (split; [assumption|]). split.
  - destruct km, km'; cbv in Hv, Hm, Hn, Hsw, Hr, Hl, Hd |- *. congruence.
  - destruct Hsch as [[-> _]|(b & -> & _)]; simpl; lia.
Qed.

(** X8.  With the event loop stored, over any sequence of udev events:
    the switch actions scheduled never repeat the target of the one before,
    the first differs from the presence tracked at the start, and the
    presence tracked at the end is the target of the last one scheduled
    (or unchanged when none was). *)
Theorem switch_targets_alternate (evs : list (Q * string * gmap string string)) :
  forall km w,
    KeyboardMonitor.loop km = true ->
    exists km' w' new,
      handle_device_events evs km w = (Ret tt, km', w') /\
      scheduled w' = new ++ scheduled w /\
      alternates (KeyboardMonitor.keyboard_connected km) (rev new) = true /\
      KeyboardMonitor.keyboard_connected km' =
        match new with
        | b :: _ => Some b
        | [] => KeyboardMonitor.keyboard_connected km
        end.
Proof.
  induction evs as [|[[now action] d] evs IH]; intros km w Hloop.
  - exists km, w, []. auto.
  - destruct (handle_device_event_step now action d km w)
      as (km1 & w1 & Hrun & _ & _ & _ & _ & _ & _ & _ & Hl & _ & Hsch & _).
    assert (Hloop1 : KeyboardMonitor.loop km1 = true) by congruence.
    destruct (IH km1 w1 Hloop1) as (km2 & w2 & new2 & Hrun2 & Hs2 & Halt & Hkc).
    simpl. unfold bind. rewrite Hrun.
    destruct Hsch as [[Hs Hsame]|(b & Hs & Hkc1 & Hne & _)].
    + specialize (Hsame Hloop). exists km2, w2, new2.
      rewrite Hs2, Hs, <- Hsame. auto.
    + exists km2, w2, (new2 ++ [b]).
      rewrite Hs2, Hs, <- app_assoc, rev_app_distr. simpl.
      rewrite Hkc1 in Halt, Hkc. rewrite Halt, bool_decide_eq_false_2 by exact Hne.
      repeat split; auto. rewrite Hkc. destruct new2; reflexivity.
Qed.

(** X8 at the scenario of the specification. *)
Lemma switch_targets_alternate_witness :
  KeyboardMonitor.loop demo_running_monitor = true /\
  (exists km' w' new,
     handle_device_events demo_events demo_running_monitor world0 = (Ret tt, km', w') /\
     scheduled w' = new ++ scheduled world0 /\
     alternates (KeyboardMonitor.keyboard_connected demo_running_monitor) (rev new) = true /\
     KeyboardMonitor.keyboard_connected km' =
       match new with
       | b :: _ => Some b
       | [] => KeyboardMonitor.keyboard_connected demo_running_monitor
       end).
Proof.
  split; [reflexivity|].
  exact (switch_targets_alternate demo_events demo_running_monitor world0 eq_refl).
Defined.

(** X9.  With a delay that is not negative, the recorded time stamp never
    moves backwards over any sequence of events, whatever the clock
    readings: a reading that lies before the recorded stamp is inside the
    window and is dropped. *)
Theorem time_stamp_never_goes_back (evs : list (Q * string * gmap string string)) :
  forall km w,
    (0 <= KeyboardMonitor.debounce_delay km)%Q ->
    exists km' w',
      handle_device_events evs km w = (Ret tt, km', w') /\
      (KeyboardMonitor.last_event_time km <= KeyboardMonitor.last_event_time km')%Q.
Proof.
  induction evs as [|[[now action] d] evs IH]; intros km w Hpos.
  - exists km, w. split; [reflexivity | apply Qle_refl].
  - destruct (handle_device_event_step now action d km w)
      as (km1 & w1 & Hrun & _ & _ & _ & _ & _ & _ & _ & _ & Hd & _ & Ht & _).
    assert (Hpos1 : (0 <= KeyboardMonitor.debounce_delay km1)%Q) by (rewrite Hd; exact Hpos).
    destruct (IH km1 w1 Hpos1) as (km2 & w2 & Hrun2 & Hle).
    exists km2, w2. simpl. unfold bind. rewrite Hrun. split; [exact Hrun2|].
    destruct Ht as [Heq | [Heq Hwin]]; rewrite Heq in Hle; [exact Hle|].
    lra.
Qed.

(** X9 at the scenario of the specification. *)
Lemma time_stamp_never_goes_back_witness :
  (0 <= KeyboardMonitor.debounce_delay demo_running_monitor)%Q /\
  (exists km' w',
     handle_device_events demo_events demo_running_monitor world0 = (Ret tt, km', w') /\
     (KeyboardMonitor.last_event_time demo_running_monitor
        <= KeyboardMonitor.last_event_time km')%Q).
Proof.
  assert (Hpos : (0 <= KeyboardMonitor.debounce_delay demo_running_monitor)%Q)
    by (intros H; vm_compute in H; discriminate H).
  split; [exact Hpos|].
  exact (time_stamp_never_goes_back demo_events demo_running_monitor world0 Hpos).
Defined.

(** ** The monitor loop *)

Lemma monitor_loop_cons env p rest km w :
  KeyboardMonitor.monitor_loop env (p :: rest) km w =
  if negb (KeyboardMonitor.running km) then (Ret true, km, w)
  else bind (poll_once env p)
         (fun continue => if continue then KeyboardMonitor.monitor_loop env rest
                          else ret true) km w.
Proof.
  cbn [KeyboardMonitor.monitor_loop]. unfold bind at 1. unfold get at 1.
  destruct (negb (KeyboardMonitor.running km)); reflexivity.
Qed.

Lemma monitor_loop_stopped env polls km w :
  KeyboardMonitor.running km = false ->
  KeyboardMonitor.monitor_loop env polls km w = (Ret true, km, w).
Proof.
  intros H. destruct polls; cbn [KeyboardMonitor.monitor_loop];
    unfold bind at 1; unfold get at 1; rewrite H; reflexivity.
Qed.

Ltac run_handler :=
  match goal with
  | |- context [KeyboardMonitor.handle_device_event ?n ?a ?d ?k ?w0] =>
      let km1 := fresh "km1" in
      let w1 := fresh "w1" in
      let Hrun := fresh "Hrun" in
      let logs := fresh "logs" in
      let Hev := fresh "Hev" in
      let Hlogs := fresh "Hlogs" in
      let Hc := fresh "Hc" in
      let Hsw := fresh "Hsw" in
      let Hr := fresh "Hr" in
      let Hl := fresh "Hl" in
      let Hk := fresh "Hk" in
      destruct (handle_device_event_step n a d k w0)
        as (km1 & w1 & Hrun & (logs & Hev & Hlogs) & Hc & _ & _ & _ & Hsw & Hr & Hl & _
            & _ & _ & Hk);
      rewrite Hrun
  end.

Lemma is_log_poll_or_log logs :
  forallb is_log logs = true -> forallb is_poll_or_log logs = true.
Proof.
  induction logs as [|[] logs IH]; simpl; intros H; try discriminate; auto.
Qed.

Lemma is_log_no_poll logs :
  forallb is_log logs = true -> count_events is_poll_call logs = 0%nat.
Proof.
  induction logs as [|[] logs IH]; simpl; intros H; try discriminate; auto.
Qed.

(** One pass of the loop. *)
Lemma poll_once_spec env p km w :
  exists r km1 w1 new,
    poll_once env p km w = (r, km1, w1) /\
    events w1 = new ++ events w /\
    forallb is_poll_or_log new = true /\
    count_events is_poll_call new = 1%nat /\
    KeyboardMonitor.tv_switcher km1 = KeyboardMonitor.tv_switcher km /\
    KeyboardMonitor.loop km1 = KeyboardMonitor.loop km /\
    KeyboardMonitor.running km1 =
      KeyboardMonitor.running km && negb (stop_requested p) /\
    (KeyboardMonitor.keyboard_connected km <> None ->
     KeyboardMonitor.keyboard_connected km1 <> None) /\
    match env (calls_made w) Monitor_poll with
    | None => r = Ret true
    | Some e =>
        km1 = (if stop_requested p then KeyboardMonitor.set_running false km else km) /\
        if is_Exception e
        then r = Ret false /\
             new = (if KeyboardMonitor.running km && negb (stop_requested p)
                    then [ELog ERROR ("Error in monitor loop: " ++ exn_str e)] else [])
                   ++ [ECall Monitor_poll (Some e)]
                   ++ (if stop_requested p then [ELog INFO "Stopping monitor..."] else [])
        else r = Raise e
    end.
Proof.
  unfold poll_once. destruct w as [evs n sch], km as [v m nm sw kc run lp last dl].
  destruct (stop_requested p);
    cbv [try_except_Exception bind KeyboardMonitor.stop log modify call ret get
         KeyboardMonitor.set_running]; cbn [events calls_made scheduled KeyboardMonitor.running];
    (destruct (env n Monitor_poll) as [e|] eqn:E;
     [ destruct (is_Exception e) eqn:Hx, run; simpl;
       do 4 eexists; (split; [reflexivity|]); simpl;
       give_new_events_evar; repeat split; auto
     | destruct (polled p) as [[action device]|];
       [destruct (String.eqb action "add" || String.eqb action "remove")|] ]).
  all: try (simpl; run_handler; simpl in Hev; simpl;
        do 4 eexists; (split; [reflexivity|]); rewrite Hev;
        match goal with
        | |- ?l ++ ?rest = ?ev ++ ?old /\ _ =>
            let p := events_before rest old in
            unify ev (l ++ p); split; [rewrite <- app_assoc; reflexivity|]
        end;
        rewrite forallb_app, count_events_app, (is_log_poll_or_log _ Hlogs),
          (is_log_no_poll _ Hlogs), Hsw, Hl, Hr; simpl;
        rewrite ?andb_true_r, ?andb_false_r; auto 10; fail).
  all: do 4 eexists; (split; [reflexivity|]); simpl;
        give_new_events_evar; rewrite ?andb_true_r, ?andb_false_r; auto 10.
Qed.

Lemma monitor_loop_spec env (polls : list Poll) :
  forall km w,
  exists r km' w' new,
    KeyboardMonitor.monitor_loop env polls km w = (r, km', w') /\
    events w' = new ++ events w /\
    forallb is_poll_or_log new = true /\
    KeyboardMonitor.tv_switcher km' = KeyboardMonitor.tv_switcher km /\
    KeyboardMonitor.loop km' = KeyboardMonitor.loop km /\
    (KeyboardMonitor.keyboard_connected km <> None ->
     KeyboardMonitor.keyboard_connected km' <> None) /\
    (count_events is_poll_call new <=
       if KeyboardMonitor.running km then polls_until_stop polls else 0)%nat /\
    (good_env env ->
     exists b, r = Ret b /\
               (existsb stop_requested polls = true -> b = true) /\
               (b = false -> KeyboardMonitor.running km' = true)).
Proof.
  induction polls as [|p rest IH]; intros km w.
  - destruct (KeyboardMonitor.running km) eqn:Hrun.
    + exists (Ret false), km, w, []. cbn [KeyboardMonitor.monitor_loop].
      unfold bind, get. rewrite Hrun. simpl.
      split; [reflexivity|]. do 6 (split; [first [reflexivity | assumption | lia | solve [auto]]|]).
      intros _. exists false. repeat split; auto; discriminate.
    + exists (Ret true), km, w, []. rewrite monitor_loop_stopped by exact Hrun.
      simpl.
      split; [reflexivity|]. do 6 (split; [first [reflexivity | assumption | lia | solve [auto]]|]).
      intros _. exists true. repeat split; auto; discriminate.
  - destruct (KeyboardMonitor.running km) eqn:Hrun.
    2:{ exists (Ret true), km, w, []. rewrite monitor_loop_stopped by exact Hrun.
        simpl.
        split; [reflexivity|]. do 6 (split; [first [reflexivity | assumption | lia | solve [auto]]|]).
        intros _. exists true. repeat split; auto; discriminate. }
    rewrite monitor_loop_cons, Hrun. cbn [negb]. unfold bind.
    destruct (poll_once_spec env p km w)
      as (r1 & km1 & w1 & new1 & Hrun1 & Hev1 & Hall1 & Hcnt1 & Hsw1 & Hl1 & Hr1 & Hk1 & Hcase).
    rewrite Hrun1. rewrite Hrun in Hr1. cbn [andb] in Hr1.
    destruct (env (calls_made w) Monitor_poll) as [e|] eqn:E.
    + destruct Hcase as [_ Hcase]. destruct (is_Exception e) eqn:Hx.
      * destruct Hcase as [-> _]. unfold ret.
        exists (Ret true), km1, w1, new1. rewrite Hcnt1.
        repeat (split; [assumption || reflexivity|]).
        split; [simpl; destruct (stop_requested p); simpl; lia|].
        intros _. exists true. repeat split; auto; discriminate.
      * subst r1. exists (Raise e), km1, w1, new1. rewrite Hcnt1.
        repeat (split; [assumption || reflexivity|]).
        split; [simpl; destruct (stop_requested p); simpl; lia|].
        intros Hgood. rewrite (Hgood _ _ _ E) in Hx. discriminate Hx.
    + subst r1.
      destruct (IH km1 w1)
        as (r2 & km2 & w2 & new2 & Hrun2 & Hev2 & Hall2 & Hsw2 & Hl2 & Hk2 & Hcnt2 & Hret2).
      rewrite Hrun2. exists r2, km2, w2, (new2 ++ new1).
      split; [reflexivity|].
      split; [rewrite Hev2, Hev1; apply app_assoc|].
      split; [rewrite forallb_app, Hall1, Hall2; reflexivity|].
      split; [congruence|]. split; [congruence|]. split; [auto|].
      split.
      * rewrite count_events_app, Hcnt1. rewrite Hr1 in Hcnt2.
        simpl. destruct (stop_requested p); simpl in *; lia.
      * intros Hgood. destruct (Hret2 Hgood) as (b & -> & Hstop & Hstill).
        exists b. split; [reflexivity|]. split; [|exact Hstill].
        simpl. intros Hex. apply orb_true_iff in Hex as [Hp|Hex]; [|auto].
        rewrite Hp in Hr1. simpl in Hr1.
        rewrite (monitor_loop_stopped env rest km1 w1 Hr1) in Hrun2.
        inversion Hrun2. reflexivity.
Qed.

Lemma monitor_loop_app env (before rest : list Poll) :
  forall km w km0 w0,
    KeyboardMonitor.monitor_loop env before km w = (Ret false, km0, w0) ->
    KeyboardMonitor.monitor_loop env (before ++ rest) km w
      = KeyboardMonitor.monitor_loop env rest km0 w0.
Proof.
  induction before as [|p before IH]; intros km w km0 w0 H.
  - cbn [KeyboardMonitor.monitor_loop] in H. unfold bind at 1 in H. unfold get at 1 in H.
    destruct (KeyboardMonitor.running km) eqn:Hrun; simpl in H;
      [|discriminate H].
    inversion H; subst. reflexivity.
  - rewrite <- app_comm_cons. rewrite monitor_loop_cons in H |- *.
    destruct (negb (KeyboardMonitor.running km)); [discriminate H|].
    unfold bind in H |- *.
    destruct (poll_once env p km w) as [[[[|]|e] km1] w1];
      [apply IH; exact H | discriminate H | discriminate H].
Qed.

(** The pass during which the stop is requested. *)
Lemma monitor_loop_stop_pass env p (rest : list Poll) km w action device :
  KeyboardMonitor.running km = true ->
  stop_requested p = true ->
  polled p = Some (action, device) ->
  action = "add" \/ action = "remove" ->
  env (calls_made w) Monitor_poll = None ->
  exists km1 w1,
    KeyboardMonitor.handle_device_event (clock p) action device
      (KeyboardMonitor.set_running false km)
      {| events := ECall Monitor_poll None :: ELog INFO "Stopping monitor..." :: events w;
         calls_made := S (calls_made w);
         scheduled := scheduled w |}
      = (Ret tt, km1, w1) /\
    KeyboardMonitor.monitor_loop env (p :: rest) km w = (Ret true, km1, w1).
Proof.
  intros Hrun Hstop Hpolled Haction E.
  rewrite monitor_loop_cons, Hrun. cbn [negb]. unfold poll_once.
  rewrite Hstop, Hpolled.
  assert (Ha : String.eqb action "add" || String.eqb action "remove" = true)
    by (destruct Haction; subst; reflexivity).
  rewrite Ha.
  destruct w as [evs n sch], km as [v m nm sw kc run lp last dl].
  cbn [calls_made] in E.
  cbv [try_except_Exception bind KeyboardMonitor.stop log modify call ret get].
  cbn [events calls_made scheduled]. rewrite E.
  destruct (handle_device_event_step (clock p) action device
              (KeyboardMonitor.set_running false
                 (KeyboardMonitor.mk v m nm sw kc run lp last dl))
              {| events := ECall Monitor_poll None :: ELog INFO "Stopping monitor..." :: evs;
                 calls_made := S n; scheduled := sch |})
    as (km1 & w1 & Hh & _ & _ & _ & _ & _ & _ & Hr & _).
  exists km1, w1. split; [exact Hh|].
  rewrite Hh. apply monitor_loop_stopped. rewrite Hr. reflexivity.
Qed.

(** X10.  With errors that are [Exception]s the loop never raises; it
    polls no more after the pass during which a stop was requested, so the
    number of polls is at most the position of the first stop request;
    once a stop has been requested the loop has been left, and it is still
    running only when the polls ran out without one; the device polled in
    the pass of the stop request is still handled: the loop leaves the
    monitor and the world as the handler leaves them on that event. *)
Theorem monitor_loop_stops_after_request env (polls : list Poll) km w :
  good_env env ->
  KeyboardMonitor.running km = true ->
  exists b km' w' new,
    KeyboardMonitor.monitor_loop env polls km w = (Ret b, km', w') /\
    events w' = new ++ events w /\
    (count_events is_poll_call new <= polls_until_stop polls)%nat /\
    (existsb stop_requested polls = true -> b = true) /\
    (b = false -> KeyboardMonitor.running km' = true) /\
    (forall before p rest action device km0 w0,
       polls = before ++ p :: rest ->
       KeyboardMonitor.monitor_loop env before km w = (Ret false, km0, w0) ->
       stop_requested p = true ->
       polled p = Some (action, device) ->
       action = "add" \/ action = "remove" ->
       env (calls_made w0) Monitor_poll = None ->
       KeyboardMonitor.handle_device_event (clock p) action device
         (KeyboardMonitor.set_running false km0)
         {| events := ECall Monitor_poll None :: ELog INFO "Stopping monitor..."
                      :: events w0;
            calls_made := S (calls_made w0);
            scheduled := scheduled w0 |}
       = (Ret tt, km', w')).
Proof.
  intros Hgood Hrun.
  destruct (monitor_loop_spec env polls km w)
    as (r & km' & w' & new & Hloop & Hev & _ & _ & _ & _ & Hcnt & Hret).
  destruct (Hret Hgood) as (b & -> & Hstop & Hstill). rewrite Hrun in Hcnt.
  exists b, km', w', new. do 5 (split; [assumption|]).
  intros before p rest action device km0 w0 -> Hbefore Hp Hpolled Haction E.
  rewrite (monitor_loop_app env before (p :: rest) km w km0 w0 Hbefore) in Hloop.
  assert (Hrun0 : KeyboardMonitor.running km0 = true).
  { destruct (monitor_loop_spec env before km w)
      as (r0 & km0' & w0' & new0 & Hloop0 & _ & _ & _ & _ & _ & _ & Hret0).
    destruct (Hret0 Hgood) as (b0 & -> & _ & Hstill0).
    rewrite Hbefore in Hloop0. inversion Hloop0; subst. auto. }
  destruct (monitor_loop_stop_pass env p rest km0 w0 action device Hrun0 Hp Hpolled Haction E)
    as (km1 & w1 & Hh & Hpass).
  rewrite Hpass in Hloop. inversion Hloop; subst. exact Hh.
Qed.

(** X10 at three polls with the signal during the second; the device
    polled in that pass is the keyboard. *)
Lemma monitor_loop_stops_after_request_witness :
  good_env env_ok /\
  KeyboardMonitor.running demo_running_monitor = true /\
  (exists b km' w' new,
     KeyboardMonitor.monitor_loop env_ok demo_stop_polls demo_running_monitor world0
       = (Ret b, km', w') /\
     events w' = new ++ events world0 /\
     (count_events is_poll_call new <= polls_until_stop demo_stop_polls)%nat /\
     (existsb stop_requested demo_stop_polls = true -> b = true) /\
     (b = false -> KeyboardMonitor.running km' = true) /\
     (forall before p rest action device km0 w0,
        demo_stop_polls = before ++ p :: rest ->
        KeyboardMonitor.monitor_loop env_ok before demo_running_monitor world0
          = (Ret false, km0, w0) ->
        stop_requested p = true ->
        polled p = Some (action, device) ->
        action = "add" \/ action = "remove" ->
        env_ok (calls_made w0) Monitor_poll = None ->
        KeyboardMonitor.handle_device_event (clock p) action device
          (KeyboardMonitor.set_running false km0)
          {| events := ECall Monitor_poll None :: ELog INFO "Stopping monitor..."
                       :: events w0;
             calls_made := S (calls_made w0);
             scheduled := scheduled w0 |}
        = (Ret tt, km', w'))).
Proof.
  assert (Hgood : good_env env_ok) by (intros n c e H; discriminate H).
  split; [exact Hgood|]. split; [reflexivity|].
  exact (monitor_loop_stops_after_request env_ok demo_stop_polls demo_running_monitor
           world0 Hgood eq_refl).
Defined.

(** X11.  Under any behaviour of the outside, the only external call the
    loop makes is the poll of the udev monitor: it never calls the TV
    client and leaves the switcher object as it was (switches are only
    scheduled), and a presence that is known stays known. *)
Theorem monitor_loop_only_polls env (polls : list Poll) km w :
  exists r km' w' new,
    KeyboardMonitor.monitor_loop env polls km w = (r, km', w') /\
    events w' = new ++ events w /\
    forallb is_poll_or_log new = true /\
    KeyboardMonitor.tv_switcher km' = KeyboardMonitor.tv_switcher km /\
    (KeyboardMonitor.keyboard_connected km <> None ->
     KeyboardMonitor.keyboard_connected km' <> None).
Proof.
  destruct (monitor_loop_spec env polls km w)
    as (r & km' & w' & new & Hloop & Hev & Hall & Hsw & _ & Hk & _).
  exists r, km', w', new. auto.
Qed.

(** X12.  A poll that raises an [Exception] ends the loop at once, with
    no further poll; the error is logged when no stop had been requested
    and passes silently when the stop was requested during that poll. *)
Theorem monitor_loop_poll_error env p (rest : list Poll) km w e :
  KeyboardMonitor.running km = true ->
  env (calls_made w) Monitor_poll = Some e ->
  is_Exception e = true ->
  exists w',
    KeyboardMonitor.monitor_loop env (p :: rest) km w =
      (Ret true,
       (if stop_requested p then KeyboardMonitor.set_running false km else km), w') /\
    events w' =
      (if stop_requested p then []
       else [ELog ERROR ("Error in monitor loop: " ++ exn_str e)])
      ++ [ECall Monitor_poll (Some e)]
      ++ (if stop_requested p then [ELog INFO "Stopping monitor..."] else [])
      ++ events w.
Proof.
  intros Hrun E Hx. rewrite monitor_loop_cons, Hrun. cbn [negb]. unfold bind.
  destruct (poll_once_spec env p km w)
    as (r1 & km1 & w1 & new1 & Hrun1 & Hev1 & _ & _ & _ & _ & _ & _ & Hcase).
  rewrite Hrun1. rewrite E, Hx, Hrun in Hcase. destruct Hcase as (-> & -> & ->).
  exists w1. split; [reflexivity|]. rewrite Hev1.
  destruct (stop_requested p); simpl; reflexivity.
Qed.

(** X12 at a poll that fails while the monitor runs. *)
Lemma monitor_loop_poll_error_witness :
  KeyboardMonitor.running demo_running_monitor = true /\
  env_poll_fails (calls_made world0) Monitor_poll = Some poll_error /\
  is_Exception poll_error = true /\
  (exists w',
     KeyboardMonitor.monitor_loop env_poll_fails demo_stop_polls demo_running_monitor world0 =
       (Ret true, demo_running_monitor, w') /\
     events w' =
       [ELog ERROR ("Error in monitor loop: " ++ exn_str poll_error)]
       ++ [ECall Monitor_poll (Some poll_error)] ++ [] ++ events world0).
Proof.
  split; [reflexivity|]. split; [reflexivity|]. split; [reflexivity|].
  exact (monitor_loop_poll_error env_poll_fails
           {| stop_requested := false; polled := None; clock := 1000 |}
           _ demo_running_monitor world0 poll_error eq_refl eq_refl eq_refl).
Defined.

(** ** Startup, under any environment *)

Lemma check_initial_state_scan_frame env (devices : list (gmap string string)) :
  forall km w r km' w',
    KeyboardMonitor.check_initial_state_scan env devices km w = (r, km', w') ->
    KeyboardMonitor.loop km' = KeyboardMonitor.loop km /\
    KeyboardMonitor.running km' = KeyboardMonitor.running km /\
    ((r = Ret false /\ km' = km) \/
     (KeyboardMonitor.keyboard_connected km' = Some true /\ r <> Ret false)).
Proof.
  induction devices as [|d rest IH]; intros km w r km' w'; simpl.
  - unfold ret. intros H; inversion H; subst. auto.
  - unfold bind at 1. unfold get at 1.
    destruct (KeyboardMonitor.initial_scan_test km d); [|apply IH].
    cbv [bind log modify ret KeyboardMonitor.on_tv_switcher].
    destruct (TVSwitcher.switch_input env true _ _) as [[[b|e] sw1] w1];
      intros H; inversion H; subst; destruct km; simpl;
      (split; [reflexivity|]); (split; [reflexivity|]); right; split;
      (reflexivity || discriminate).
Qed.

Lemma check_initial_state_frame env (devices : list (gmap string string)) km w r km' w' :
  KeyboardMonitor.check_initial_state env devices km w = (r, km', w') ->
  KeyboardMonitor.loop km' = KeyboardMonitor.loop km /\
  KeyboardMonitor.running km' = KeyboardMonitor.running km /\
  KeyboardMonitor.keyboard_connected km' <> None.
Proof.
  unfold KeyboardMonitor.check_initial_state.
  unfold bind at 1. unfold log at 1. unfold bind at 1.
  destruct (KeyboardMonitor.check_initial_state_scan env devices km _)
    as [[r1 km1] w1] eqn:Hscan.
  destruct (check_initial_state_scan_frame env devices _ _ _ _ _ Hscan)
    as (Hl & Hr & [[-> ->]|[Hk Hne]]).
  - cbv [bind get log modify ret KeyboardMonitor.on_tv_switcher].
    destruct (TVSwitcher.switch_input env false _ _) as [[[b|e] sw1] w2];
      intros H; inversion H; subst; destruct km; simpl; repeat split; discriminate.
  - destruct r1 as [[]|e]; [|congruence|]; unfold ret;
      intros H; inversion H; subst; rewrite Hk; repeat split; auto; discriminate.
Qed.

(** X13.  However [start_monitoring] ends, and whatever the outside does,
    the monitor it leaves has the event loop stored and a known presence:
    the unknown state does not outlive the startup scan. *)
Theorem presence_known_after_startup env (devices : list (gmap string string))
    (polls : list Poll) km w :
  exists r km' w',
    KeyboardMonitor.start_monitoring env devices polls km w = (r, km', w') /\
    KeyboardMonitor.keyboard_connected km' <> None /\
    KeyboardMonitor.loop km' = true.
Proof.
  unfold KeyboardMonitor.start_monitoring.
  cbv [bind get log modify].
  destruct (KeyboardMonitor.check_initial_state env devices _ _) as [[r1 km1] w1] eqn:Hchk.
  destruct (check_initial_state_frame env devices _ _ _ _ _ Hchk) as (Hl & _ & Hk).
  assert (Hl1 : KeyboardMonitor.loop km1 = true) by (rewrite Hl; destruct km; reflexivity).
  destruct r1 as [[]|e]; [|do 3 eexists; split; [reflexivity|]; auto].
  unfold call. destruct (env (calls_made w1) Monitor_start) as [e|];
    [do 3 eexists; split; [reflexivity|]; auto|].
  cbv beta iota zeta.
  match goal with
  | |- context [KeyboardMonitor.monitor_loop env polls ?k0 ?w0] =>
      destruct (monitor_loop_spec env polls k0 w0)
        as (r2 & km2 & w2 & new & Hloop & _ & _ & _ & Hl2 & Hk2 & _);
      rewrite Hloop
  end.
  destruct r2 as [[]|e]; simpl; do 3 eexists; (split; [reflexivity|]);
    split; auto; congruence.
Qed.

(** ** The signal handler *)

Lemma signal_handler_set km w :
  signal_handler (km, true) w = (Ret tt, (km, true), w).
Proof. reflexivity. Qed.

Lemma signals_set n km w : signals n (km, true) w = (Ret tt, (km, true), w).
Proof.
  induction n as [|n IH]; [reflexivity|].
  simpl. unfold bind. rewrite signal_handler_set. exact IH.
Qed.

(** X14.  Any number [n >= 1] of signals does what one does: the shutdown
    is logged and the monitor stopped once, and the event is set; the
    monitor loop, entered after that, returns without polling. *)
Theorem signal_handler_once env (n : nat) (polls : list Poll) km w :
  (1 <= n)%nat ->
  let km' := KeyboardMonitor.set_running false km in
  let w' := {| events := ELog INFO "Stopping monitor..."
                         :: ELog INFO "Received shutdown signal, shutting down gracefully..."
                         :: events w;
               calls_made := calls_made w;
               scheduled := scheduled w |} in
  signals n (km, false) w = (Ret tt, (km', true), w') /\
  KeyboardMonitor.monitor_loop env polls km' w' = (Ret true, km', w').
Proof.
  intros Hn km' w'. destruct n as [|n]; [lia|]. split.
  - simpl. unfold bind at 1.
    change (signal_handler (km, false) w) with (Ret tt, (km', true), w').
    apply signals_set.
  - apply monitor_loop_stopped. destruct km; reflexivity.
Qed.

(** X14 at two signals. *)
Lemma signal_handler_once_witness :
  (1 <= 2)%nat /\
  (let km' := KeyboardMonitor.set_running false demo_running_monitor in
   let w' := {| events := ELog INFO "Stopping monitor..."
                          :: ELog INFO "Received shutdown signal, shutting down gracefully..."
                          :: events world0;
                calls_made := calls_made world0;
                scheduled := scheduled world0 |} in
   signals 2 (demo_running_monitor, false) world0 = (Ret tt, (km', true), w') /\
   KeyboardMonitor.monitor_loop env_ok demo_stop_polls km' w' = (Ret true, km', w')).
Proof.
  split; [lia|].
  apply (signal_handler_once env_ok 2 demo_stop_polls demo_running_monitor world0). lia.
Defined.

(** ** setup.py: detecting the keyboard *)

Lemma detect_keyboards_scan_spec (devices : list (gmap string string * string)) :
  forall keyboards seen,
    (forall k, k ∈ seen <-> k ∈ key_of <$> keyboards) ->
    NoDup (key_of <$> keyboards) ->
    exists new,
      detect_keyboards_scan devices keyboards seen = keyboards ++ new /\
      NoDup (key_of <$> (keyboards ++ new)) /\
      (forall kb, kb ∈ new ->
         exists device path,
           (device, path) ∈ devices /\ listable device /\ kb = keyboard_of device path) /\
      (forall device path,
         (device, path) ∈ devices -> listable device ->
         key_of (keyboard_of device path) ∈ key_of <$> (keyboards ++ new)).
Proof.
  induction devices as [|[device path] rest IH]; intros keyboards seen Hseen Hnd.
  - exists []. simpl. rewrite app_nil_r. repeat split; auto.
    + intros kb Hin. inversion Hin.
    + intros d p Hin. inversion Hin.
  - simpl.
    assert (Hskip : ~ listable device ->
      exists new,
        detect_keyboards_scan rest keyboards seen = keyboards ++ new /\
        NoDup (key_of <$> keyboards ++ new) /\
        (forall kb, kb ∈ new ->
           exists device0 path0,
             (device0, path0) ∈ (device, path) :: rest /\ listable device0 /\
             kb = keyboard_of device0 path0) /\
        (forall device0 path0,
           (device0, path0) ∈ (device, path) :: rest -> listable device0 ->
           key_of (keyboard_of device0 path0) ∈ key_of <$> keyboards ++ new)).
    { intros Hno. destruct (IH keyboards seen Hseen Hnd) as (new & Hrun & Hnd' & Hsound & Hcompl).
      exists new. repeat split; auto.
      - intros kb Hin. destruct (Hsound kb Hin) as (d & p & Hd & Hl & ->).
        exists d, p. split; [right; exact Hd | auto].
      - intros d p Hin Hl. apply elem_of_cons in Hin as [Heq|Hin]; [|eauto].
        inversion Heq; subst. contradiction. }
    destruct (bool_decide (device !! "ID_INPUT_KEYBOARD" = Some "1")) eqn:Hk;
      [apply bool_decide_eq_true in Hk
      |apply bool_decide_eq_false in Hk; apply Hskip; intros (? & _); contradiction].
    destruct (bool_decide (device !! "ID_BUS" = Some "usb")) eqn:Hb;
      [apply bool_decide_eq_true in Hb
      |apply bool_decide_eq_false in Hb; apply Hskip; intros (_ & ? & _); contradiction].
    cbn [andb].
    destruct (truthy_str (device !! "ID_VENDOR_ID")) eqn:Hv;
      [|apply Hskip; intros (_ & _ & ? & _); congruence].
    destruct (truthy_str (device !! "ID_MODEL_ID")) eqn:Hm;
      [|apply Hskip; intros (_ & _ & _ & ?); congruence].
    cbn [andb].
    assert (Hl : listable device) by (repeat split; assumption).
    set (key := (default "" (device !! "ID_VENDOR_ID"), default "" (device !! "ID_MODEL_ID"))).
    destruct (bool_decide (key ∈ seen)) eqn:Hin;
      [apply bool_decide_eq_true in Hin | apply bool_decide_eq_false in Hin].
    + destruct (IH keyboards seen Hseen Hnd) as (new & Hrun & Hnd' & Hsound & Hcompl).
      exists new. repeat split; auto.
      * intros kb Hkb. destruct (Hsound kb Hkb) as (d & p & Hd & Hld & ->).
        exists d, p. split; [right; exact Hd | auto].
      * intros d p Hd Hld. apply elem_of_cons in Hd as [Heq|Hd]; [|eauto].
        inversion Heq; subst. rewrite fmap_app. apply elem_of_app. left.
        apply Hseen. exact Hin.
    + destruct (IH (keyboards ++ [keyboard_of device path]) ({[key]} ∪ seen))
        as (new & Hrun & Hnd' & Hsound & Hcompl).
      * intros k. rewrite fmap_app, elem_of_app, elem_of_union, elem_of_singleton, Hseen.
        simpl. rewrite list_elem_of_singleton. unfold key_of at 2. simpl. fold key.
        tauto.
      * rewrite fmap_app. apply NoDup_app. split; [exact Hnd|]. split.
        -- intros k Hk1 Hk2. simpl in Hk2. apply list_elem_of_singleton in Hk2. subst k.
           apply Hin, Hseen. exact Hk1.
        -- simpl. apply NoDup_singleton.
      * exists (keyboard_of device path :: new).
        rewrite <- app_assoc in Hrun, Hnd', Hcompl. simpl in Hrun, Hnd', Hcompl.
        repeat split; auto.
        -- intros kb Hkb. apply elem_of_cons in Hkb as [->|Hkb].
           ++ exists device, path. split; [left | auto].
           ++ destruct (Hsound kb Hkb) as (d & p & Hd & Hld & ->).
              exists d, p. split; [right; exact Hd | auto].
        -- intros d p Hd Hld. apply elem_of_cons in Hd as [Heq|Hd]; [|eauto].
           inversion Heq; subst. rewrite fmap_app. apply elem_of_app. right.
           simpl. left.
Qed.

(** X15.  The keyboards [detect_keyboards] lists: no two have the same
    pair of vendor and model identifiers; each comes from a listed device
    that is a USB keyboard with both identifiers present and not empty;
    and every such device is represented by an entry with its two
    identifiers. *)
Theorem detected_keyboards_distinct (devices : list (gmap string string * string)) :
  let keyboards := detect_keyboards_scan devices [] ∅ in
  NoDup (key_of <$> keyboards) /\
  (forall kb, kb ∈ keyboards ->
     exists device path,
       (device, path) ∈ devices /\ listable device /\ kb = keyboard_of device path) /\
  (forall device path,
     (device, path) ∈ devices -> listable device ->
     exists kb, kb ∈ keyboards /\
                device !! "ID_VENDOR_ID" = Some (kb_vendor_id kb) /\
                device !! "ID_MODEL_ID" = Some (kb_model_id kb)).
Proof.
  intros keyboards.
  destruct (detect_keyboards_scan_spec devices [] ∅) as (new & Hrun & Hnd & Hsound & Hcompl).
  - intros k. simpl. rewrite elem_of_nil. set_solver.
  - simpl. apply NoDup_nil. exact I.
  - simpl in Hrun, Hnd, Hcompl. unfold keyboards. rewrite Hrun.
    split; [exact Hnd|]. split; [exact Hsound|].
    intros device path Hin Hl. specialize (Hcompl device path Hin Hl).
    apply list_elem_of_fmap in Hcompl as (kb & Hkey & Hkb).
    exists kb. split; [exact Hkb|].
    destruct Hl as (_ & _ & Hv & Hm).
    unfold key_of in Hkey. simpl in Hkey. inversion Hkey as [[Hv' Hm']].
    destruct (device !! "ID_VENDOR_ID") as [v|]; [|discriminate Hv].
    destruct (device !! "ID_MODEL_ID") as [m|]; [|discriminate Hm].
    simpl in *. split; congruence.
Qed.

Lemma select_keyboard_spec (keyboards : list Keyboard) (answers : list (option Z)) :
  match select_keyboard keyboards answers with
  | Returned kb => kb ∈ keyboards
  | SysExit status => status = 1%nat
  | EOFError => True
  | IndexError => False
  end.
Proof.
  induction answers as [|[choice|] rest IH]; simpl; auto.
  destruct ((0 <=? choice - 1)%Z && (choice - 1 <? Z.of_nat (length keyboards))%Z) eqn:Hrange;
    [|exact IH].
  apply andb_true_iff in Hrange as [H0 H1].
  apply Z.leb_le in H0. apply Z.ltb_lt in H1.
  destruct (keyboards !! Z.to_nat (choice - 1)) as [kb|] eqn:Hkb.
  - apply list_elem_of_lookup. eauto.
  - apply lookup_ge_None in Hkb. lia.
Qed.

(** X16.  [detect_keyboards] returns only a keyboard read from a listed
    USB keyboard device; its index into the list is always in range; when
    it ends the process the status is 1, which is what it does when no
    listed device is a USB keyboard with both identifiers. *)
Theorem detect_keyboards_outcome (devices : list (gmap string string * string))
    (answers : list (option Z)) :
  match detect_keyboards devices answers with
  | Returned kb =>
      exists device path,
        (device, path) ∈ devices /\ listable device /\ kb = keyboard_of device path
  | SysExit status => status = 1%nat
  | EOFError => True
  | IndexError => False
  end /\
  ((forall device path, (device, path) ∈ devices -> ~ listable device) ->
   detect_keyboards devices answers = SysExit 1).
Proof.
  destruct (detected_keyboards_distinct devices) as (_ & Hsound & _).
  unfold detect_keyboards. simpl in Hsound.
  destruct (detect_keyboards_scan devices [] ∅) as [|kb [|kb2 rest]] eqn:Hscan.
  - split; auto.
  - split.
    + apply Hsound. left.
    + intros Hnone. destruct (Hsound kb) as (d & p & Hin & Hl & _); [left|].
      exfalso. exact (Hnone d p Hin Hl).
  - split.
    + pose proof (select_keyboard_spec (kb :: kb2 :: rest) answers) as Hsel.
      destruct (select_keyboard (kb :: kb2 :: rest) answers); auto.
    + intros Hnone. destruct (Hsound kb) as (d & p & Hin & Hl & _); [left|].
      exfalso. exact (Hnone d p Hin Hl).
Qed.

(** ** setup.py and the monitor *)

Lemma build_saved_config tv_ip (kb : Keyboard) :
  build_objects (save_config tv_ip kb) =
  let sw := TVSwitcher.__init__ tv_ip "com.webos.app.hdmi2" "com.webos.app.hdmi3" true in
  Objects sw
    (KeyboardMonitor.__init__ (kb_vendor_id kb) (kb_model_id kb)
       (kb_vendor kb ++ " " ++ kb_model kb) sw).
Proof. reflexivity. Qed.

(** X17.  From the configuration [save_config] writes for a keyboard that
    [detect_keyboards] returned, [async_main] builds its two objects
    without error: the switcher for the given address with the screen
    option on, and a monitor that recognises a device of the enumeration
    the keyboard was detected in, and every USB keyboard whose identifiers
    equal the detected ones up to case. *)
Theorem setup_keyboard_recognised (devices : list (gmap string string * string))
    (answers : list (option Z)) tv_ip (kb : Keyboard) :
  detect_keyboards devices answers = Returned kb ->
  exists sw km,
    build_objects (save_config tv_ip kb) = Objects sw km /\
    TVSwitcher.tv_ip sw = tv_ip /\
    TVSwitcher.turn_on_screen sw = true /\
    existsb (KeyboardMonitor.is_target_keyboard km) (fst <$> devices) = true /\
    (forall device : gmap string string,
       matches_identity (kb_vendor_id kb) (kb_model_id kb) device ->
       KeyboardMonitor.is_target_keyboard km device = true).
Proof.
  intros Hdet.
  pose proof (detect_keyboards_outcome devices answers) as [Hout _].
  rewrite Hdet in Hout. destruct Hout as (device & path & Hin & Hl & Hkb).
  rewrite build_saved_config. do 2 eexists. split; [reflexivity|].
  split; [reflexivity|]. split; [reflexivity|].
  assert (Hiff : forall d : gmap string string,
            KeyboardMonitor.is_target_keyboard
              (KeyboardMonitor.__init__ (kb_vendor_id kb) (kb_model_id kb)
                 (kb_vendor kb ++ " " ++ kb_model kb)
                 (TVSwitcher.__init__ tv_ip "com.webos.app.hdmi2" "com.webos.app.hdmi3" true)) d
            = true <-> matches_identity (kb_vendor_id kb) (kb_model_id kb) d).
  { intros d. apply is_target_keyboard_iff; reflexivity. }
  split.
  - apply existsb_exists. exists device. split.
    + apply list_elem_of_In, list_elem_of_fmap. exists (device, path). auto.
    + apply Hiff. destruct Hl as (Hk & Hb & Hv & Hm). subst kb. simpl.
      unfold matches_identity, get_or. repeat split; auto;
        apply lower_eq_ci_eq; reflexivity.
  - intros d Hd. apply Hiff. exact Hd.
Qed.

(** X17 at an enumeration with a mouse and the demo keyboard. *)
Lemma setup_keyboard_recognised_witness :
  detect_keyboards demo_setup_devices [] = Returned demo_detected /\
  (exists sw km,
     build_objects (save_config "192.168.1.50" demo_detected) = Objects sw km /\
     TVSwitcher.tv_ip sw = "192.168.1.50" /\
     TVSwitcher.turn_on_screen sw = true /\
     existsb (KeyboardMonitor.is_target_keyboard km) (fst <$> demo_setup_devices) = true /\
     (forall device : gmap string string,
        matches_identity (kb_vendor_id demo_detected) (kb_model_id demo_detected) device ->
        KeyboardMonitor.is_target_keyboard km device = true)).
Proof.
  assert (Hdet : detect_keyboards demo_setup_devices [] = Returned demo_detected)
    by (vm_compute; reflexivity).
  split; [exact Hdet|].
  exact (setup_keyboard_recognised demo_setup_devices [] "192.168.1.50" demo_detected Hdet).
Defined.

(** ** The configuration read by [async_main] *)

(** X18.  When [async_main] builds its objects from a configuration
    object, the wake-screen option is on if the configuration has no
    "screen" section or the section lacks "turn_on_when_connected";
    otherwise it is the truth value of what the section gives; a "screen"
    entry that is no object never yields the objects. *)
Theorem config_screen_default (m : gmap string json) sw km :
  build_objects (JObj m) = Objects sw km ->
  match m !! "screen" with
  | None => TVSwitcher.turn_on_screen sw = true
  | Some (JObj screen) =>
      TVSwitcher.turn_on_screen sw =
        match screen !! "turn_on_when_connected" with
        | None => true
        | Some v => truthy v
        end
  | Some _ => False
  end.
Proof.
  unfold build_objects, bind_config, subscript, get_default.
  destruct (m !! "tv_ip") as [tv_ip|]; [|discriminate].
  destruct (m !! "hdmi") as [[| | | | |hdmi]|]; try discriminate.
  destruct (hdmi !! "connected") as [hc|]; [|discriminate].
  destruct (hdmi !! "disconnected") as [hd|]; [|discriminate].
  destruct (m !! "screen") as [[| | | | |screen]|]; simpl; try discriminate.
  - destruct (m !! "keyboard") as [[| | | | |kbd]|]; try discriminate.
    destruct (kbd !! "vendor_id") as [v|]; [|discriminate].
    destruct (kbd !! "model_id") as [mo|]; [|discriminate].
    destruct (kbd !! "name") as [nm|]; [|discriminate].
    destruct v, mo; try discriminate. destruct tv_ip, hc, hd, nm; try discriminate.
    intros H; inversion H; subst. simpl.
    destruct (screen !! "turn_on_when_connected"); reflexivity.
  - destruct (m !! "keyboard") as [[| | | | |kbd]|]; try discriminate.
    destruct (kbd !! "vendor_id") as [v|]; [|discriminate].
    destruct (kbd !! "model_id") as [mo|]; [|discriminate].
    destruct (kbd !! "name") as [nm|]; [|discriminate].
    destruct v, mo; try discriminate. destruct tv_ip, hc, hd, nm; try discriminate.
    intros H; inversion H; subst. reflexivity.
Qed.

(** X18 at the configuration [save_config] writes. *)
Lemma config_screen_default_witness :
  build_objects (save_config "192.168.1.50" demo_detected)
    = Objects demo_switcher
        (KeyboardMonitor.__init__ (kb_vendor_id demo_detected) (kb_model_id demo_detected)
           (kb_vendor demo_detected ++ " " ++ kb_model demo_detected) demo_switcher) /\
  TVSwitcher.turn_on_screen demo_switcher = true.
Proof.
  assert (Hbuild : build_objects (save_config "192.168.1.50" demo_detected)
            = Objects demo_switcher
                (KeyboardMonitor.__init__ (kb_vendor_id demo_detected)
                   (kb_model_id demo_detected)
                   (kb_vendor demo_detected ++ " " ++ kb_model demo_detected) demo_switcher))
    by reflexivity.
  split; [exact Hbuild|].
  exact (config_screen_default _ _ _ Hbuild).
Defined.

(** X19.  What a malformed configuration does to [async_main]: a value
    that is no object raises TypeError; an object raises KeyError for the
    first of "tv_ip", "hdmi" and "keyboard" that it lacks, in that order;
    a keyboard identifier that is no string raises AttributeError when
    [KeyboardMonitor.__init__] lower-cases it. *)
Theorem config_missing_key_raises (config : json) :
  ((forall m, config <> JObj m) -> build_objects config = Raises TypeError) /\
  (forall m, config = JObj m ->
     (m !! "tv_ip" = None -> build_objects config = Raises (KeyError "tv_ip")) /\
     (m !! "tv_ip" <> None -> m !! "hdmi" = None ->
      build_objects config = Raises (KeyError "hdmi")) /\
     (forall hdmi, m !! "tv_ip" <> None -> m !! "hdmi" = Some (JObj hdmi) ->
        hdmi !! "connected" <> None -> hdmi !! "disconnected" <> None ->
        m !! "screen" = None -> m !! "keyboard" = None ->
        build_objects config = Raises (KeyError "keyboard")) /\
     (forall hdmi kbd vendor_id model_id,
        m !! "tv_ip" <> None -> m !! "hdmi" = Some (JObj hdmi) ->
        hdmi !! "connected" <> None -> hdmi !! "disconnected" <> None ->
        m !! "screen" = None -> m !! "keyboard" = Some (JObj kbd) ->
        kbd !! "vendor_id" = Some vendor_id -> kbd !! "model_id" = Some model_id ->
        kbd !! "name" <> None ->
        (forall s, vendor_id <> JStr s) \/ (forall s, model_id <> JStr s) ->
        build_objects config = Raises AttributeError)).
Proof.
  split.
  - intros Hno. destruct config; try reflexivity. exfalso. eapply Hno. reflexivity.
  - intros m ->. unfold build_objects, bind_config, subscript, get_default.
    split; [intros ->; reflexivity|].
    split.
    { intros Hip ->. destruct (m !! "tv_ip"); [reflexivity | contradiction]. }
    split.
    { intros hdmi Hip -> Hc Hd -> ->.
      destruct (m !! "tv_ip"); [|contradiction].
      destruct (hdmi !! "connected"); [|contradiction].
      destruct (hdmi !! "disconnected"); [|contradiction]. reflexivity. }
    intros hdmi kbd vendor_id model_id Hip -> Hc Hd -> -> -> -> Hn Hbad.
    destruct (m !! "tv_ip"); [|contradiction].
    destruct (hdmi !! "connected"); [|contradiction].
    destruct (hdmi !! "disconnected"); [|contradiction].
    destruct (kbd !! "name"); [|contradiction]. simpl.
    destruct Hbad as [Hbad|Hbad].
    + destruct vendor_id; try reflexivity. exfalso. eapply Hbad. reflexivity.
    + destruct vendor_id, model_id; try reflexivity; exfalso; eapply Hbad; reflexivity.
Qed.

(** ** setup.py: asking for the address *)

Section DiscoverTvProperties.
Context {char : Type} (isspace : char -> bool).

Lemma lstrip_spec (s : list char) :
  exists pre,
    s = pre ++ lstrip isspace s /\ forallb isspace pre = true /\
    (forall c r, lstrip isspace s = c :: r -> isspace c = false).
Proof.
  induction s as [|a s (pre & Hs & Hpre & Hhead)]; simpl.
  - exists []. repeat split; auto. intros c r H. discriminate H.
  - destruct (isspace a) eqn:Ha.
    + exists (a :: pre). simpl. rewrite Ha, Hpre. repeat split; auto. congruence.
    + exists []. repeat split; auto. intros c r H. inversion H; subst. exact Ha.
Qed.

Lemma rstrip_spec (s : list char) :
  exists post,
    s = rstrip isspace s ++ post /\ forallb isspace post = true /\
    (forall c front, rstrip isspace s = front ++ [c] -> isspace c = false).
Proof.
  induction s as [|a s (post & Hs & Hpost & Hlast)]; simpl.
  - exists []. split; [reflexivity|]. split; [reflexivity|].
    intros c front H. destruct front; discriminate H.
  - destruct (rstrip isspace s) as [|b r] eqn:Hr.
    + simpl in Hs. subst s. destruct (isspace a) eqn:Ha.
      * exists (a :: post). simpl. rewrite Ha, Hpost.
        split; [reflexivity|]. split; [reflexivity|].
        intros c front H. destruct front; discriminate H.
      * exists post. split; [reflexivity|]. split; [exact Hpost|].
        intros c front H. destruct front as [|x [|y front]]; inversion H; subst; auto.
    + exists post. split; [simpl; rewrite Hs at 1; reflexivity|]. split; [exact Hpost|].
      intros c front H. destruct front as [|x front]; [discriminate H|].
      inversion H; subst. eapply Hlast. eassumption.
Qed.

(** [s.strip()] is [s] without a run of white space at each end, and
    begins and ends with a character that is none. *)
Lemma strip_spec (s : list char) :
  exists pre post,
    s = pre ++ strip isspace s ++ post /\
    forallb isspace pre = true /\ forallb isspace post = true /\
    (forall c r, strip isspace s = c :: r -> isspace c = false) /\
    (forall c front, strip isspace s = front ++ [c] -> isspace c = false).
Proof.
  unfold strip.
  destruct (lstrip_spec s) as (pre & Hs & Hpre & Hhead).
  destruct (rstrip_spec (lstrip isspace s)) as (post & Hl & Hpost & Hlast).
  exists pre, post. split; [rewrite Hs at 1; rewrite Hl at 1; reflexivity|].
  split; [exact Hpre|]. split; [exact Hpost|]. split; [|exact Hlast].
  intros c r H. rewrite H in Hl. simpl in Hl. eapply Hhead. exact Hl.
Qed.

Lemma strip_blank (s : list char) :
  strip isspace s = [] -> forallb isspace s = true.
Proof.
  intros H. destruct (strip_spec s) as (pre & post & Hs & Hpre & Hpost & _).
  rewrite H in Hs. rewrite Hs. simpl. rewrite forallb_app, Hpre, Hpost. reflexivity.
Qed.

(** X20.  [discover_tv] returns the first answer that is not blank, with
    the white space at its two ends removed: the address is not empty,
    begins and ends with a character that is no white space, and every
    answer before it was blank.  It ends otherwise only by an error that
    [input()] raised (the end of the input, or an interrupt), and every
    answer before that was blank; it never ends the process itself. *)
Theorem discover_tv_returns_stripped (inputs : list (Answer char)) :
  match discover_tv isspace inputs with
  | Given tv_ip =>
      exists blank line rest pre post,
        inputs = (Line <$> blank) ++ Line line :: rest /\
        Forall (fun l => forallb isspace l = true) blank /\
        line = pre ++ tv_ip ++ post /\
        forallb isspace pre = true /\ forallb isspace post = true /\
        tv_ip <> [] /\
        (forall c r, tv_ip = c :: r -> isspace c = false) /\
        (forall c front, tv_ip = front ++ [c] -> isspace c = false)
  | RaisesEOFError =>
      exists blank,
        inputs = Line <$> blank /\ Forall (fun l => forallb isspace l = true) blank
  | RaisesKeyboardInterrupt =>
      exists blank rest,
        inputs = (Line <$> blank) ++ CtrlC :: rest /\
        Forall (fun l => forallb isspace l = true) blank
  end.
Proof.
  induction inputs as [|[line|] rest IH]; simpl.
  - exists []. split; [reflexivity | constructor].
  - destruct (strip isspace line) as [|c tv] eqn:Hstrip.
    + apply strip_blank in Hstrip.
      destruct (discover_tv isspace rest) as [tv_ip| |].
      * destruct IH as (blank & l & r & pre & post & -> & Hall & Hrest).
        exists (line :: blank), l, r, pre, post.
        split; [reflexivity|]. split; [constructor; assumption | exact Hrest].
      * destruct IH as (blank & -> & Hall).
        exists (line :: blank). split; [reflexivity | constructor; assumption].
      * destruct IH as (blank & r & -> & Hall).
        exists (line :: blank), r. split; [reflexivity | constructor; assumption].
    + destruct (strip_spec line) as (pre & post & Hs & Hpre & Hpost & Hhead & Hlast).
      rewrite Hstrip in Hs, Hhead, Hlast.
      exists [], line, rest, pre, post.
      split; [reflexivity|]. split; [constructor|]. split; [exact Hs|].
      split; [exact Hpre|]. split; [exact Hpost|]. split; [discriminate|].
      split; [exact Hhead | exact Hlast].
  - exists [], rest. split; [reflexivity | constructor].
Qed.

End DiscoverTvProperties.

(** An address typed between two no-break spaces, after an empty line. *)
Example discover_tv_no_break_space :
  discover_tv unicode_isspace [Line []; Line [160; 49; 48; 46; 48; 46; 48; 46; 53; 160]%N]
  = Given [49; 48; 46; 48; 46; 48; 46; 53]%N.
Proof. reflexivity. Qed.
